(** * linear-agent: the Linear MCP tool server and the backlog engine

    A shallow embedding of the TypeScript sources (the validator, the error
    handler, the [LinearClient] wrapper, the twelve tool handlers, the server
    dispatch and the entry point) and a model of the backlog engine the
    specification describes, followed by the properties of the specification
    that concern them.

    Conventions of the embedding:
    - a value of TypeScript type [any] is a [JsVal]; numbers that occur in the
      sources are only compared and forwarded, never computed with, and are
      carried as integers;
    - a [Record<string, any>] is a [gmap string JsVal]; reading a key that is
      not there gives [JUndefined];
    - a string is a [string], one character per code unit, so that
      [String.length] is JavaScript's [.length];
    - an [async] function is a program ([Prog]) over the events it awaits;
      [throw] and [try]/[catch] are constructors and combinators of [Prog]. *)

From Stdlib Require Import ZArith QArith String Ascii List Bool Lia.
From stdpp Require Import base option list gmap strings stringmap pretty sorting.

Set Warnings "-register-all".

Local Open Scope string_scope.
Local Open Scope Z_scope.

(** ** JavaScript values *)

Inductive JsVal : Type :=
| JUndefined
| JNull
| JBool (b : bool)
| JNum (n : Z)
| JStr (s : string)
| JArr (items : list JsVal)
| JObj (fields : list (string * JsVal)).

Inductive JsType : Type :=
| TUndefined | TObject | TBoolean | TNumber | TString.

Definition typeof (v : JsVal) : JsType :=
  match v with
  | JUndefined => TUndefined
  | JNull | JArr _ | JObj _ => TObject
  | JBool _ => TBoolean
  | JNum _ => TNumber
  | JStr _ => TString
  end.

(** [if (v)], [!v], [a && b], [a || b] and [c ? x : y] test this. *)
Definition truthy (v : JsVal) : bool :=
  match v with
  | JUndefined | JNull => false
  | JBool b => b
  | JNum n => negb (n =? 0)
  | JStr s => negb (String.eqb s "")
  | JArr _ | JObj _ => true
  end.

(** [a === b] on primitive values. Two object values met by the sources are
    never the same reference, so they compare unequal. *)
Definition strictEq (a b : JsVal) : bool :=
  match a, b with
  | JUndefined, JUndefined | JNull, JNull => true
  | JBool x, JBool y => Bool.eqb x y
  | JNum x, JNum y => x =? y
  | JStr x, JStr y => String.eqb x y
  | _, _ => false
  end.

(** [`${v}`]: the string a template literal interpolates. *)
Fixpoint toStr (v : JsVal) : string :=
  match v with
  | JUndefined => "undefined"
  | JNull => "null"
  | JBool true => "true"
  | JBool false => "false"
  | JNum n => pretty n
  | JStr s => s
  | JArr items =>
      let elem x := match x with JUndefined | JNull => "" | _ => toStr x end in
      (fix join (l : list JsVal) : string :=
         match l with
         | [] => ""
         | [x] => elem x
         | x :: rest => elem x +:+ "," +:+ join rest
         end) items
  | JObj _ => "[object Object]"
  end.

(** [a.join(sep)] on an array of strings. *)
Fixpoint joinWith (sep : string) (l : list string) : string :=
  match l with
  | [] => ""
  | [x] => x
  | x :: rest => x +:+ sep +:+ joinWith sep rest
  end.

(** [hay.includes(needle)] *)
Definition contains (needle hay : string) : bool :=
  match index 0 needle hay with Some _ => true | None => false end.

(** [args.key] on a [Record<string, any>]. *)
Definition prop (args : gmap string JsVal) (key : string) : JsVal :=
  default JUndefined (args !! key).

(** The line feed of ["\n"] and the double quote, as one-character strings. *)
Definition nl : string := String (ascii_of_nat 10) EmptyString.
Definition dquote : string := String (ascii_of_nat 34) EmptyString.

(** What a [throw] carries: an [Error] object with its message, or any other
    value. *)
Inductive JsThrown : Type :=
| ErrorObj (msg : string)
| Thrown (v : JsVal).

(** ** src/utils/validator.ts *)

Record ValidationError : Type := { field : string; message : string }.

Module Validator.

Definition validateRequired (value : JsVal) (fieldName : string)
  : option ValidationError :=
  if strictEq value JUndefined || strictEq value JNull || strictEq value (JStr "")
  then Some {| field := fieldName; message := fieldName +:+ " is required" |}
  else None.

(** [minLength] and [maxLength] are optional: [None] is an omitted
    argument. [minLength && ...] also skips a bound of 0. *)
Definition validateString (value : JsVal) (fieldName : string)
    (minLength maxLength : option Z) : option ValidationError :=
  match value with
  | JStr s =>
      let len := Z.of_nat (String.length s) in
      if match minLength with
         | Some m => negb (m =? 0) && (len <? m)
         | None => false
         end
      then Some {| field := fieldName;
                   message := fieldName +:+ " must be at least "
                              +:+ pretty (default 0 minLength) +:+ " characters" |}
      else if match maxLength with
              | Some m => negb (m =? 0) && (m <? len)
              | None => false
              end
      then Some {| field := fieldName;
                   message := fieldName +:+ " must be at most "
                              +:+ pretty (default 0 maxLength) +:+ " characters" |}
      else None
  | _ => Some {| field := fieldName; message := fieldName +:+ " must be a string" |}
  end.


Definition validateEnum (value : JsVal) (fieldName : string)
    (allowedValues : list JsVal) : option ValidationError :=
  if negb (existsb (strictEq value) allowedValues)
  then Some {| field := fieldName;
               message := fieldName +:+ " must be one of: "
                          +:+ joinWith ", " (map toStr allowedValues) |}
  else None.

Fixpoint collectErrors (validations : list (option ValidationError))
  : list ValidationError :=
  match validations with
  | [] => []
  | Some e :: rest => e :: collectErrors rest
  | None :: rest => collectErrors rest
  end.

End Validator.

(** ** Asynchronous programs

    An [async] function is a tree of the events it awaits. [Throw] is a raised
    exception (a rejected promise), [tryCatch] is [try { p } catch (e) { h e }],
    [Halt] is [process.exit]: it ends the program and no [catch] sees it.
    An event whose answer type is [Exc X] is a call that may itself reject. *)

Inductive Exc (A : Type) : Type :=
| Resolved (a : A)
| Rejected (e : JsThrown).
Arguments Resolved {A} a.
Arguments Rejected {A} e.

Inductive Prog (E : Type -> Type) (A : Type) : Type :=
| Ret (a : A)
| Throw (e : JsThrown)
| Halt (code : Z)
| Vis {X : Type} (ev : E X) (k : X -> Prog E A).
Arguments Ret {E A} a.
Arguments Throw {E A} e.
Arguments Halt {E A} code.
Arguments Vis {E A X} ev k.

Fixpoint bind {E A B} (p : Prog E A) (f : A -> Prog E B) : Prog E B :=
  match p with
  | Ret a => f a
  | Throw e => Throw e
  | Halt c => Halt c
  | Vis ev k => Vis ev (fun x => bind (k x) f)
  end.

Fixpoint tryCatch {E A} (p : Prog E A) (h : JsThrown -> Prog E A) : Prog E A :=
  match p with
  | Ret a => Ret a
  | Throw e => h e
  | Halt c => Halt c
  | Vis ev k => Vis ev (fun x => tryCatch (k x) h)
  end.

(** [await call]: the resolved value, or the rejection rethrown. *)
Definition await {E X} (ev : E (Exc X)) : Prog E X :=
  Vis ev (fun r => match r with Resolved x => Ret x | Rejected e => Throw e end).

(** An event that cannot fail. *)
Definition perform {E X} (ev : E X) : Prog E X := Vis ev Ret.

Notation "'let*' x ':=' p 'in' q" := (bind p (fun x => q))
  (at level 10, x name, p at level 100, q at level 200).

(** Every event on every path of [p] satisfies [P]. *)
Fixpoint allEvents {E A} (P : forall X, E X -> Prop) (p : Prog E A) : Prop :=
  match p with
  | Ret _ | Throw _ | Halt _ => True
  | Vis ev k => P _ ev /\ forall x, allEvents P (k x)
  end.

(** How the paths of [p] end: a returned value satisfies [onRet], an exception
    that escapes satisfies [onThrow], an exit code satisfies [onHalt]. *)
Fixpoint ends {E A} (onRet : A -> Prop) (onThrow : JsThrown -> Prop) (onHalt : Z -> Prop)
    (p : Prog E A) : Prop :=
  match p with
  | Ret a => onRet a
  | Throw e => onThrow e
  | Halt c => onHalt c
  | Vis _ k => forall x, ends onRet onThrow onHalt (k x)
  end.

(** Every path of [p] ends in a returned value that satisfies [Q]: none ends
    in an exception that escapes, and none ends the process. *)
Definition alwaysReturns {E A} (Q : A -> Prop) (p : Prog E A) : Prop :=
  ends Q (fun _ => False) (fun _ => False) p.

(** No path of [p] ends the process. *)
Definition neverHalts {E A} (p : Prog E A) : Prop :=
  ends (fun _ => True) (fun _ => True) (fun _ => False) p.

(** How a run ends: with a value, with an exception nothing caught, or with
    the exit of the process. *)
Inductive Outcome (A : Type) : Type :=
| Returned (a : A)
| Raised (e : JsThrown)
| Exited (code : Z).
Arguments Returned {A} a.
Arguments Raised {A} e.
Arguments Exited {A} code.

(** Running [p] in a world [W] that answers each event and moves on. *)
Fixpoint run {E A W} (answer : forall X, E X -> W -> X * W) (p : Prog E A) (w : W)
  : Outcome A * W :=
  match p with
  | Ret a => (Returned a, w)
  | Throw e => (Raised e, w)
  | Halt c => (Exited c, w)
  | Vis ev k => let '(x, w') := answer _ ev w in run answer (k x) w'
  end.

(** ** src/types/linear.ts and the nodes of @linear/sdk *)

Record StateInfo : Type := { state_id : string; state_name : string; state_type : string }.
Record UserInfo : Type := { user_id : string; user_name : string; user_email : string }.
Record NamedRef : Type := { ref_id : string; ref_name : string }.
Record TeamInfo : Type := { team_id : string; team_name : string; team_key : string }.
Record LabelInfo : Type := { label_id : string; label_name : string; label_color : string }.

(** An [Issue] node of the SDK with the relations [formatIssue] awaits already
    fetched. Dates are carried by their ISO rendering. *)
Record IssueNode : Type := {
  node_id : string;
  node_identifier : string;
  node_title : string;
  node_description : option string;
  node_priority : Z;
  node_priorityLabel : string;
  node_state : option StateInfo;
  node_assignee : option UserInfo;
  node_project : option NamedRef;
  node_team : TeamInfo;
  node_labels : list LabelInfo;
  node_creator : option UserInfo;
  node_createdAt : string;
  node_updatedAt : string;
  node_url : string
}.

Record ProjectNode : Type := {
  pnode_id : string;
  pnode_name : string;
  pnode_description : option string;
  pnode_state : string;
  pnode_progress : Z;
  pnode_startDate : option string;
  pnode_targetDate : option string;
  pnode_team : NamedRef;
  pnode_lead : option NamedRef;
  pnode_url : string
}.

Record TeamNode : Type := {
  tnode_id : string;
  tnode_name : string;
  tnode_key : string;
  tnode_description : option string
}.

Record CommentNode : Type := { cnode_id : string; cnode_body : string }.

Module LinearIssue.
Record t : Type := {
  id : string;
  identifier : string;
  title : string;
  description : option string;
  priority : Z;
  priorityLabel : string;
  state : StateInfo;
  assignee : option UserInfo;
  creator : NamedRef;
  project : option NamedRef;
  team : TeamInfo;
  labels : list LabelInfo;
  createdAt : string;
  updatedAt : string;
  url : string
}.
End LinearIssue.

Module LinearProject.
Record t : Type := {
  id : string;
  name : string;
  description : option string;
  state : string;
  progress : Z;
  startDate : option string;
  targetDate : option string;
  team : NamedRef;
  lead : option NamedRef;
  url : string
}.
End LinearProject.

Module LinearTeam.
Record t : Type := {
  id : string;
  name : string;
  key : string;
  description : option string
}.
End LinearTeam.

(** The input objects are built from [args], whose fields are [any]: each
    field holds the raw value, [JUndefined] when the key is left out. *)
Module IssueFilter.
Record t : Type := {
  assigneeId : JsVal;
  priority : JsVal;
  stateType : JsVal;
  projectId : JsVal
}.
End IssueFilter.

Module IssueCreateInput.
Record t : Type := {
  title : JsVal;
  description : JsVal;
  priority : JsVal;
  assigneeId : JsVal;
  projectId : JsVal;
  labelIds : JsVal;
  stateId : JsVal
}.
End IssueCreateInput.

Module IssueUpdateInput.
Record t : Type := {
  title : JsVal;
  description : JsVal;
  priority : JsVal;
  assigneeId : JsVal;
  projectId : JsVal;
  stateId : JsVal;
  labelIds : JsVal
}.
Definition empty : t :=
  {| title := JUndefined; description := JUndefined; priority := JUndefined;
     assigneeId := JUndefined; projectId := JUndefined; stateId := JUndefined;
     labelIds := JUndefined |}.
End IssueUpdateInput.

(** The [filter] object [listIssues] sends: [team] always, the others only
    when their guard passed. *)
Record FilterObj : Type := {
  f_team : string;
  f_assignee : option JsVal;
  f_priority : option JsVal;
  f_stateType : option JsVal;
  f_project : option JsVal
}.

(** What [LinearClient.createIssue] sends to the SDK. *)
Record SdkCreateIssueInput : Type := {
  sent_teamId : string;
  sent : IssueCreateInput.t
}.

(** ** The events of the server

    Calls of the logger, the construction of the SDK client, the connection of
    the server to its transport, and the calls of the SDK client.
    [SdkDeleteIssue] and [SdkArchiveIssue] are operations the SDK offers and no
    source file calls: they are events so that their absence from the programs
    below is a fact about the programs. *)
Inductive LinearE : Type -> Type :=
| LoggerCall (method : string) (msg : string) (detail : option JsThrown) : LinearE unit
| SdkNew (apiKey : string) : LinearE unit
| ServerConnect : LinearE (Exc unit)
| SdkIssues (filter : FilterObj) (first : JsVal) (orderBy : string)
    : LinearE (Exc (list IssueNode))
| SdkIssue (issueId : JsVal) : LinearE (Exc IssueNode)
| SdkCreateIssue (input : SdkCreateIssueInput) : LinearE (Exc (option IssueNode))
| SdkUpdateIssue (issueId : JsVal) (input : IssueUpdateInput.t)
    : LinearE (Exc (option IssueNode))
| SdkCreateComment (issueId body : JsVal) : LinearE (Exc (option CommentNode))
| SdkIssueSearch (query first : JsVal) (teamId : string) : LinearE (Exc (list IssueNode))
| SdkProjects (teamId : string) (first : JsVal) : LinearE (Exc (list ProjectNode))
| SdkProject (projectId : JsVal) : LinearE (Exc ProjectNode)
| SdkCreateProject (teamIds : list string) (name description : JsVal)
    : LinearE (Exc (option ProjectNode))
| SdkTeams : LinearE (Exc (list TeamNode))
| SdkDeleteIssue (issueId : JsVal) : LinearE (Exc bool)
| SdkArchiveIssue (issueId : JsVal) : LinearE (Exc bool).

Definition isDelete {X} (ev : LinearE X) : bool :=
  match ev with
  | SdkDeleteIssue _ | SdkArchiveIssue _ => true
  | _ => false
  end.

(** The events that ask the tracker for anything at all. *)
Definition isSdkCall {X} (ev : LinearE X) : bool :=
  match ev with
  | LoggerCall _ _ _ | SdkNew _ | ServerConnect => false
  | _ => true
  end.

(** ** src/utils/logger.ts *)

Module Logger.

Definition levels : list string := ["debug"; "info"; "warn"; "error"].

(** [a.indexOf(x)]: the first index, or -1. *)
Fixpoint indexOf (a : list string) (x : string) : Z :=
  match a with
  | [] => -1
  | y :: rest =>
      if String.eqb y x then 0
      else let i := indexOf rest x in if i <? 0 then -1 else i + 1
  end.

Definition shouldLog (this_level level : string) : bool :=
  let currentLevelIndex := indexOf levels this_level in
  let messageLevelIndex := indexOf levels level in
  currentLevelIndex <=? messageLevelIndex.

(** The line a logger method prints at time [now] (ISO), if it prints. The
    methods are named after their level. *)
Definition line (this_level method now msg : string) : option string :=
  let tag :=
    if String.eqb method "debug" then "[DEBUG] "
    else if String.eqb method "info" then "[INFO] "
    else if String.eqb method "warn" then "[WARN] "
    else "[ERROR] " in
  if shouldLog this_level method
  then Some (tag +:+ now +:+ " - " +:+ msg)
  else None.

Definition info (msg : string) : Prog LinearE unit :=
  perform (LoggerCall "info" msg None).

Definition error (msg : string) (err : JsThrown) : Prog LinearE unit :=
  perform (LoggerCall "error" msg (Some err)).

End Logger.

(** ** src/types/mcp.ts and src/utils/error-handler.ts *)

Record MCPContent : Type := { type : string; text : string }.
Record MCPResponse : Type := { content : list MCPContent; isError : option bool }.

Module ErrorHandler.

(** [error?.message] on a thrown value that is not an [Error]. *)
Definition messageOf (v : JsVal) : JsVal :=
  match v with
  | JObj fields =>
      match find (fun kv => String.eqb (fst kv) "message") fields with
      | Some kv => snd kv
      | None => JUndefined
      end
  | _ => JUndefined
  end.

Definition errorMessage (error : JsThrown) : string :=
  match error with
  | ErrorObj m => m
  | Thrown (JStr s) => s
  | Thrown v =>
      if truthy (messageOf v) then toStr (messageOf v)
      else "An unexpected error occurred"
  end.

Definition handle (error : JsThrown) (context : string) : Prog LinearE MCPResponse :=
  let* _ := Logger.error ("Error in " +:+ context +:+ ":") error in
  Ret {| content := [ {| type := "text"; text := "Error: " +:+ errorMessage error |} ];
         isError := Some true |}.

Definition handleValidationErrors (errors : list ValidationError) : MCPResponse :=
  let errorMessages :=
    joinWith nl (map (fun e => "- " +:+ field e +:+ ": " +:+ message e) errors) in
  {| content := [ {| type := "text"; text := "Validation errors:" +:+ nl +:+ errorMessages |} ];
     isError := Some true |}.

(** Every call site passes the message alone; the optional [data] argument is
    left out. *)
Definition success (msg : string) : MCPResponse :=
  {| content := [ {| type := "text"; text := msg |} ]; isError := None |}.

End ErrorHandler.

(** ** src/linear-client.ts *)

Record LinearClient : Type := { apiKey : string; teamId : string }.

Module Client.

(** [s || undefined] on an optional string. *)
Definition orUndefined (s : option string) : option string :=
  match s with
  | Some x => if String.eqb x "" then None else Some x
  | None => None
  end.

(** [s || d] on an optional string. *)
Definition orElse (s : option string) (d : string) : string :=
  match s with
  | Some x => if String.eqb x "" then d else x
  | None => d
  end.

Definition formatIssue (issue : IssueNode) : LinearIssue.t :=
  {| LinearIssue.id := node_id issue;
     LinearIssue.identifier := node_identifier issue;
     LinearIssue.title := node_title issue;
     LinearIssue.description := orUndefined (node_description issue);
     LinearIssue.priority := node_priority issue;
     LinearIssue.priorityLabel := node_priorityLabel issue;
     LinearIssue.state :=
       match node_state issue with
       | Some st => {| state_id := state_id st; state_name := state_name st;
                       state_type := state_type st |}
       | None => {| state_id := ""; state_name := "Unknown"; state_type := "unknown" |}
       end;
     LinearIssue.assignee :=
       match node_assignee issue with
       | Some a => Some {| user_id := user_id a; user_name := user_name a;
                           user_email := user_email a |}
       | None => None
       end;
     LinearIssue.creator :=
       {| ref_id := orElse (user_id <$> node_creator issue) "";
          ref_name := orElse (user_name <$> node_creator issue) "Unknown" |};
     LinearIssue.project :=
       match node_project issue with
       | Some p => Some {| ref_id := ref_id p; ref_name := ref_name p |}
       | None => None
       end;
     LinearIssue.team :=
       {| team_id := team_id (node_team issue); team_name := team_name (node_team issue);
          team_key := team_key (node_team issue) |};
     LinearIssue.labels :=
       map (fun l => {| label_id := label_id l; label_name := label_name l;
                        label_color := label_color l |}) (node_labels issue);
     LinearIssue.createdAt := node_createdAt issue;
     LinearIssue.updatedAt := node_updatedAt issue;
     LinearIssue.url := node_url issue |}.

Definition formatProject (project : ProjectNode) : LinearProject.t :=
  {| LinearProject.id := pnode_id project;
     LinearProject.name := pnode_name project;
     LinearProject.description := orUndefined (pnode_description project);
     LinearProject.state := pnode_state project;
     LinearProject.progress := pnode_progress project;
     LinearProject.startDate := pnode_startDate project;
     LinearProject.targetDate := pnode_targetDate project;
     LinearProject.team :=
       {| ref_id := ref_id (pnode_team project); ref_name := ref_name (pnode_team project) |};
     LinearProject.lead :=
       match pnode_lead project with
       | Some l => Some {| ref_id := ref_id l; ref_name := ref_name l |}
       | None => None
       end;
     LinearProject.url := pnode_url project |}.

(** A parameter with a default value takes it when the argument is
    [undefined]. *)
Definition orDefault (v d : JsVal) : JsVal :=
  if strictEq v JUndefined then d else v.

(** The method body between [try] and [catch]; the [catch] logs and
    rethrows. *)
Definition logAndRethrow {A} (msg : string) (body : Prog LinearE A) : Prog LinearE A :=
  tryCatch body (fun error => let* _ := Logger.error msg error in Throw error).

Definition listIssues (this : LinearClient) (filter : option IssueFilter.t) (limit : JsVal)
  : Prog LinearE (list LinearIssue.t) :=
  let limit := orDefault limit (JNum 50) in
  logAndRethrow "Error listing issues:" (
    let get (f : IssueFilter.t -> JsVal) := from_option f JUndefined filter in
    let filterObj :=
      {| f_team := teamId this;
         f_assignee :=
           if truthy (get IssueFilter.assigneeId) then Some (get IssueFilter.assigneeId) else None;
         f_priority :=
           if negb (strictEq (get IssueFilter.priority) JUndefined)
           then Some (get IssueFilter.priority) else None;
         f_stateType :=
           if truthy (get IssueFilter.stateType) then Some (get IssueFilter.stateType) else None;
         f_project :=
           if truthy (get IssueFilter.projectId) then Some (get IssueFilter.projectId) else None
      |} in
    let* issues := await (SdkIssues filterObj limit "updatedAt") in
    let result := map formatIssue issues in
    let* _ := Logger.info ("Listed " +:+ pretty (length result) +:+ " issues") in
    Ret result).

Definition getIssue (this : LinearClient) (issueId : JsVal) : Prog LinearE LinearIssue.t :=
  logAndRethrow ("Error getting issue " +:+ toStr issueId +:+ ":") (
    let* issue := await (SdkIssue issueId) in
    Ret (formatIssue issue)).

Definition createIssue (this : LinearClient) (input : IssueCreateInput.t)
  : Prog LinearE LinearIssue.t :=
  logAndRethrow "Error creating issue:" (
    let* createdIssue := await (SdkCreateIssue
      {| sent_teamId := teamId this;
         sent := {| IssueCreateInput.title := IssueCreateInput.title input;
                    IssueCreateInput.description := IssueCreateInput.description input;
                    IssueCreateInput.priority := IssueCreateInput.priority input;
                    IssueCreateInput.assigneeId := IssueCreateInput.assigneeId input;
                    IssueCreateInput.projectId := IssueCreateInput.projectId input;
                    IssueCreateInput.labelIds := IssueCreateInput.labelIds input;
                    IssueCreateInput.stateId := IssueCreateInput.stateId input |} |}) in
    match createdIssue with
    | None => Throw (ErrorObj "Failed to create issue")
    | Some createdIssue =>
        let* _ := Logger.info ("Created issue: " +:+ node_identifier createdIssue) in
        Ret (formatIssue createdIssue)
    end).

Definition updateIssue (this : LinearClient) (issueId : JsVal) (input : IssueUpdateInput.t)
  : Prog LinearE LinearIssue.t :=
  logAndRethrow ("Error updating issue " +:+ toStr issueId +:+ ":") (
    let* updatedIssue := await (SdkUpdateIssue issueId input) in
    match updatedIssue with
    | None => Throw (ErrorObj "Failed to update issue")
    | Some updatedIssue =>
        let* _ := Logger.info ("Updated issue: " +:+ node_identifier updatedIssue) in
        Ret (formatIssue updatedIssue)
    end).

Definition addComment (this : LinearClient) (issueId body : JsVal)
  : Prog LinearE CommentNode :=
  logAndRethrow ("Error adding comment to issue " +:+ toStr issueId +:+ ":") (
    let* comment := await (SdkCreateComment issueId body) in
    match comment with
    | None => Throw (ErrorObj "Failed to create comment")
    | Some comment =>
        let* _ := Logger.info ("Added comment to issue " +:+ toStr issueId) in
        Ret {| cnode_id := cnode_id comment; cnode_body := cnode_body comment |}
    end).

Definition searchIssues (this : LinearClient) (query limit : JsVal)
  : Prog LinearE (list LinearIssue.t) :=
  let limit := orDefault limit (JNum 20) in
  logAndRethrow "Error searching issues:" (
    let* issues := await (SdkIssueSearch query limit (teamId this)) in
    let result := map formatIssue issues in
    let* _ := Logger.info ("Found " +:+ pretty (length result) +:+ " issues matching "
                           +:+ dquote +:+ toStr query +:+ dquote) in
    Ret result).

Definition listProjects (this : LinearClient) (limit : JsVal)
  : Prog LinearE (list LinearProject.t) :=
  let limit := orDefault limit (JNum 50) in
  logAndRethrow "Error listing projects:" (
    let* projects := await (SdkProjects (teamId this) limit) in
    let result := map formatProject projects in
    let* _ := Logger.info ("Listed " +:+ pretty (length result) +:+ " projects") in
    Ret result).

Definition getProject (this : LinearClient) (projectId : JsVal)
  : Prog LinearE LinearProject.t :=
  logAndRethrow ("Error getting project " +:+ toStr projectId +:+ ":") (
    let* project := await (SdkProject projectId) in
    Ret (formatProject project)).

Definition createProject (this : LinearClient) (name description : JsVal)
  : Prog LinearE LinearProject.t :=
  logAndRethrow "Error creating project:" (
    let* project := await (SdkCreateProject [teamId this] name description) in
    match project with
    | None => Throw (ErrorObj "Failed to create project")
    | Some project =>
        let* _ := Logger.info ("Created project: " +:+ pnode_name project) in
        Ret (formatProject project)
    end).

Definition listTeams (this : LinearClient) : Prog LinearE (list LinearTeam.t) :=
  logAndRethrow "Error listing teams:" (
    let* teams := await SdkTeams in
    let result :=
      map (fun team => {| LinearTeam.id := tnode_id team;
                          LinearTeam.name := tnode_name team;
                          LinearTeam.key := tnode_key team;
                          LinearTeam.description := orUndefined (tnode_description team) |})
          teams in
    let* _ := Logger.info ("Listed " +:+ pretty (length result) +:+ " teams") in
    Ret result).

End Client.

(** ** src/tools/*.ts: the tool descriptors

    A descriptor keeps the name, the description, the declared properties and
    the required keys of its [inputSchema]. *)

Record SchemaProperty : Type := {
  prop_name : string;
  prop_type : string;
  prop_description : string
}.

Record MCPTool : Type := {
  name : string;
  description : string;
  properties : list SchemaProperty;
  required : list string
}.

Definition listIssuesTool : MCPTool :=
  {| name := "list_issues";
     description := "List issues from Linear with optional filtering";
     properties :=
       [ {| prop_name := "assigneeId"; prop_type := "string";
            prop_description := "Filter by assignee user ID" |};
         {| prop_name := "priority"; prop_type := "number";
            prop_description := "Filter by priority (0-4, where 1 is urgent, 4 is low)" |};
         {| prop_name := "stateType"; prop_type := "string";
            prop_description := "Filter by state type" |};
         {| prop_name := "projectId"; prop_type := "string";
            prop_description := "Filter by project ID" |};
         {| prop_name := "limit"; prop_type := "number";
            prop_description := "Maximum number of issues to return (default: 50)" |} ];
     required := [] |}.

Definition getIssueTool : MCPTool :=
  {| name := "get_issue";
     description := "Get detailed information about a specific Linear issue";
     properties :=
       [ {| prop_name := "issueId"; prop_type := "string";
            prop_description :=
              "The issue ID or identifier (e.g., " +:+ dquote +:+ "ENG-123" +:+ dquote +:+ ")" |} ];
     required := ["issueId"] |}.

Definition createIssueTool : MCPTool :=
  {| name := "create_issue";
     description := "Create a new Linear issue";
     properties :=
       [ {| prop_name := "title"; prop_type := "string"; prop_description := "Issue title" |};
         {| prop_name := "description"; prop_type := "string";
            prop_description := "Issue description (supports Markdown)" |};
         {| prop_name := "priority"; prop_type := "number";
            prop_description := "Priority (0-4, where 1 is urgent, 4 is low)" |};
         {| prop_name := "assigneeId"; prop_type := "string";
            prop_description := "User ID to assign the issue to" |};
         {| prop_name := "projectId"; prop_type := "string";
            prop_description := "Project ID to add the issue to" |} ];
     required := ["title"] |}.

Definition updateIssueTool : MCPTool :=
  {| name := "update_issue";
     description := "Update an existing Linear issue";
     properties :=
       [ {| prop_name := "issueId"; prop_type := "string";
            prop_description := "The issue ID or identifier to update" |};
         {| prop_name := "title"; prop_type := "string"; prop_description := "New issue title" |};
         {| prop_name := "description"; prop_type := "string";
            prop_description := "New issue description" |};
         {| prop_name := "priority"; prop_type := "number";
            prop_description := "New priority (0-4)" |};
         {| prop_name := "stateId"; prop_type := "string"; prop_description := "New state ID" |};
         {| prop_name := "assigneeId"; prop_type := "string";
            prop_description := "New assignee user ID" |} ];
     required := ["issueId"] |}.

Definition addCommentTool : MCPTool :=
  {| name := "add_comment";
     description := "Add a comment to a Linear issue";
     properties :=
       [ {| prop_name := "issueId"; prop_type := "string";
            prop_description := "The issue ID or identifier" |};
         {| prop_name := "body"; prop_type := "string";
            prop_description := "Comment text (supports Markdown)" |} ];
     required := ["issueId"; "body"] |}.

Definition searchIssuesTool : MCPTool :=
  {| name := "search_issues";
     description := "Search Linear issues by text query";
     properties :=
       [ {| prop_name := "query"; prop_type := "string";
            prop_description := "Search query text" |};
         {| prop_name := "limit"; prop_type := "number";
            prop_description := "Maximum number of results (default: 20)" |} ];
     required := ["query"] |}.

Definition assignIssueTool : MCPTool :=
  {| name := "assign_issue";
     description := "Assign a Linear issue to a user";
     properties :=
       [ {| prop_name := "issueId"; prop_type := "string";
            prop_description := "The issue ID or identifier" |};
         {| prop_name := "assigneeId"; prop_type := "string";
            prop_description :=
              "User ID to assign the issue to (use empty string to unassign)" |} ];
     required := ["issueId"; "assigneeId"] |}.

Definition updateStatusTool : MCPTool :=
  {| name := "update_status";
     description := "Update the status of a Linear issue";
     properties :=
       [ {| prop_name := "issueId"; prop_type := "string";
            prop_description := "The issue ID or identifier" |};
         {| prop_name := "stateId"; prop_type := "string";
            prop_description := "The state ID to set" |} ];
     required := ["issueId"; "stateId"] |}.

Definition listProjectsTool : MCPTool :=
  {| name := "list_projects";
     description := "List all projects in the Linear team";
     properties :=
       [ {| prop_name := "limit"; prop_type := "number";
            prop_description := "Maximum number of projects to return (default: 50)" |} ];
     required := [] |}.

Definition getProjectTool : MCPTool :=
  {| name := "get_project";
     description := "Get detailed information about a specific Linear project";
     properties :=
       [ {| prop_name := "projectId"; prop_type := "string";
            prop_description := "The project ID" |} ];
     required := ["projectId"] |}.

Definition createProjectTool : MCPTool :=
  {| name := "create_project";
     description := "Create a new Linear project";
     properties :=
       [ {| prop_name := "name"; prop_type := "string"; prop_description := "Project name" |};
         {| prop_name := "description"; prop_type := "string";
            prop_description := "Project description (supports Markdown)" |} ];
     required := ["name"] |}.

Definition listTeamsTool : MCPTool :=
  {| name := "list_teams";
     description := "List all teams in the Linear workspace";
     properties := [];
     required := [] |}.

(** [src/config/agent-config.ts] *)
Definition LINEAR_PRIORITY_MAP : gmap Z string :=
  {[ 0 := "No priority"; 1 := "Urgent"; 2 := "High"; 3 := "Medium"; 4 := "Low" ]}.

Definition STATE_TYPES : list string :=
  ["backlog"; "unstarted"; "started"; "completed"; "canceled"].

(** ** src/tools/*.ts: the handlers *)

(** [s.trim()], for the white space of the ASCII range. *)
Definition isSpace (c : ascii) : bool :=
  let n := nat_of_ascii c in
  ((9 <=? n)%nat && (n <=? 13)%nat) || (n =? 32)%nat.

Fixpoint trimStart (s : string) : string :=
  match s with
  | String c rest => if isSpace c then trimStart rest else s
  | EmptyString => EmptyString
  end.

Fixpoint trimEnd (s : string) : string :=
  match s with
  | String c rest =>
      match trimEnd rest with
      | EmptyString => if isSpace c then EmptyString else String c EmptyString
      | rest' => String c rest'
      end
  | EmptyString => EmptyString
  end.

Definition trim (s : string) : string := trimEnd (trimStart s).

(** [errors.length > 0] *)
Definition hasErrors (errors : list ValidationError) : bool :=
  (0 <? length errors)%nat.

Section Handlers.

(** [new Date(iso).toLocaleDateString()] depends on the locale and the time
    zone of the host. *)
Variable toLocaleDateString : string -> string.

Variable client : LinearClient.

Definition createListIssuesHandler (args : gmap string JsVal) : Prog LinearE MCPResponse :=
  tryCatch (
    let* issues := Client.listIssues client
      (Some {| IssueFilter.assigneeId := prop args "assigneeId";
               IssueFilter.priority := prop args "priority";
               IssueFilter.stateType := prop args "stateType";
               IssueFilter.projectId := prop args "projectId" |})
      (prop args "limit") in
    if (length issues =? 0)%nat
    then Ret (ErrorHandler.success "No issues found matching the criteria.")
    else
      let issueList := joinWith (nl +:+ nl) (map (fun issue =>
        let assignee :=
          match LinearIssue.assignee issue with
          | Some a => " | Assigned to: " +:+ user_name a
          | None => ""
          end in
        let project :=
          match LinearIssue.project issue with
          | Some p => " | Project: " +:+ ref_name p
          | None => ""
          end in
        "- " +:+ LinearIssue.identifier issue +:+ ": " +:+ LinearIssue.title issue +:+ nl
        +:+ "  Status: " +:+ state_name (LinearIssue.state issue)
        +:+ " | Priority: " +:+ LinearIssue.priorityLabel issue +:+ assignee +:+ project +:+ nl
        +:+ "  " +:+ LinearIssue.url issue) issues) in
      Ret (ErrorHandler.success
             ("Found " +:+ pretty (length issues) +:+ " issue(s):" +:+ nl +:+ nl +:+ issueList)))
  (fun error => ErrorHandler.handle error "list_issues").

Definition createGetIssueHandler (args : gmap string JsVal) : Prog LinearE MCPResponse :=
  tryCatch (
    let errors := Validator.collectErrors
      [ Validator.validateRequired (prop args "issueId") "issueId" ] in
    if hasErrors errors then Ret (ErrorHandler.handleValidationErrors errors)
    else
      let* issue := Client.getIssue client (prop args "issueId") in
      let details := trim (
        nl +:+ "# " +:+ LinearIssue.identifier issue +:+ ": " +:+ LinearIssue.title issue +:+ nl
        +:+ nl
        +:+ "**Status:** " +:+ state_name (LinearIssue.state issue) +:+ nl
        +:+ "**Priority:** " +:+ LinearIssue.priorityLabel issue +:+ nl
        +:+ "**Created:** " +:+ toLocaleDateString (LinearIssue.createdAt issue) +:+ nl
        +:+ "**Updated:** " +:+ toLocaleDateString (LinearIssue.updatedAt issue) +:+ nl
        +:+ "**Creator:** " +:+ ref_name (LinearIssue.creator issue) +:+ nl
        +:+ match LinearIssue.assignee issue with
            | Some a => "**Assignee:** " +:+ user_name a +:+ " (" +:+ user_email a +:+ ")"
            | None => "**Assignee:** Unassigned"
            end +:+ nl
        +:+ match LinearIssue.project issue with
            | Some p => "**Project:** " +:+ ref_name p
            | None => ""
            end +:+ nl
        +:+ (if (0 <? length (LinearIssue.labels issue))%nat
             then "**Labels:** " +:+ joinWith ", " (map label_name (LinearIssue.labels issue))
             else "") +:+ nl
        +:+ nl
        +:+ "## Description" +:+ nl
        +:+ Client.orElse (LinearIssue.description issue) "No description provided" +:+ nl
        +:+ nl
        +:+ "**URL:** " +:+ LinearIssue.url issue +:+ nl
        +:+ "      ") in
      Ret (ErrorHandler.success details))
  (fun error => ErrorHandler.handle error "get_issue").

Definition createCreateIssueHandler (args : gmap string JsVal) : Prog LinearE MCPResponse :=
  tryCatch (
    let errors := Validator.collectErrors
      [ Validator.validateRequired (prop args "title") "title";
        Validator.validateString (prop args "title") "title" (Some 1) (Some 255) ] in
    if hasErrors errors then Ret (ErrorHandler.handleValidationErrors errors)
    else
      let* issue := Client.createIssue client
        {| IssueCreateInput.title := prop args "title";
           IssueCreateInput.description := prop args "description";
           IssueCreateInput.priority := prop args "priority";
           IssueCreateInput.assigneeId := prop args "assigneeId";
           IssueCreateInput.projectId := prop args "projectId";
           IssueCreateInput.labelIds := JUndefined;
           IssueCreateInput.stateId := JUndefined |} in
      Ret (ErrorHandler.success
             ("✅ Created issue " +:+ LinearIssue.identifier issue +:+ ": "
              +:+ LinearIssue.title issue +:+ nl +:+ nl +:+ "URL: " +:+ LinearIssue.url issue)))
  (fun error => ErrorHandler.handle error "create_issue").

Definition createUpdateIssueHandler (args : gmap string JsVal) : Prog LinearE MCPResponse :=
  tryCatch (
    let errors := Validator.collectErrors
      [ Validator.validateRequired (prop args "issueId") "issueId" ] in
    if hasErrors errors then Ret (ErrorHandler.handleValidationErrors errors)
    else
      let* issue := Client.updateIssue client (prop args "issueId")
        {| IssueUpdateInput.title := prop args "title";
           IssueUpdateInput.description := prop args "description";
           IssueUpdateInput.priority := prop args "priority";
           IssueUpdateInput.assigneeId := prop args "assigneeId";
           IssueUpdateInput.projectId := JUndefined;
           IssueUpdateInput.stateId := prop args "stateId";
           IssueUpdateInput.labelIds := JUndefined |} in
      Ret (ErrorHandler.success
             ("✅ Updated issue " +:+ LinearIssue.identifier issue +:+ ": "
              +:+ LinearIssue.title issue +:+ nl +:+ nl +:+ "URL: " +:+ LinearIssue.url issue)))
  (fun error => ErrorHandler.handle error "update_issue").

Definition createAddCommentHandler (args : gmap string JsVal) : Prog LinearE MCPResponse :=
  tryCatch (
    let errors := Validator.collectErrors
      [ Validator.validateRequired (prop args "issueId") "issueId";
        Validator.validateRequired (prop args "body") "body";
        Validator.validateString (prop args "body") "body" (Some 1) None ] in
    if hasErrors errors then Ret (ErrorHandler.handleValidationErrors errors)
    else
      let* comment := Client.addComment client (prop args "issueId") (prop args "body") in
      Ret (ErrorHandler.success
             ("✅ Added comment to issue " +:+ toStr (prop args "issueId") +:+ nl +:+ nl
              +:+ "Comment ID: " +:+ cnode_id comment)))
  (fun error => ErrorHandler.handle error "add_comment").

Definition createSearchIssuesHandler (args : gmap string JsVal) : Prog LinearE MCPResponse :=
  tryCatch (
    let errors := Validator.collectErrors
      [ Validator.validateRequired (prop args "query") "query";
        Validator.validateString (prop args "query") "query" (Some 1) None ] in
    if hasErrors errors then Ret (ErrorHandler.handleValidationErrors errors)
    else
      let* issues := Client.searchIssues client (prop args "query") (prop args "limit") in
      if (length issues =? 0)%nat
      then Ret (ErrorHandler.success
                  ("No issues found matching " +:+ dquote +:+ toStr (prop args "query") +:+ dquote))
      else
        let issueList := joinWith (nl +:+ nl) (map (fun issue =>
          "- " +:+ LinearIssue.identifier issue +:+ ": " +:+ LinearIssue.title issue +:+ nl
          +:+ "  Status: " +:+ state_name (LinearIssue.state issue)
          +:+ " | Priority: " +:+ LinearIssue.priorityLabel issue +:+ nl
          +:+ "  " +:+ LinearIssue.url issue) issues) in
        Ret (ErrorHandler.success
               ("Found " +:+ pretty (length issues) +:+ " issue(s) matching " +:+ dquote
                +:+ toStr (prop args "query") +:+ dquote +:+ ":" +:+ nl +:+ nl +:+ issueList)))
  (fun error => ErrorHandler.handle error "search_issues").

Definition createAssignIssueHandler (args : gmap string JsVal) : Prog LinearE MCPResponse :=
  tryCatch (
    let errors := Validator.collectErrors
      [ Validator.validateRequired (prop args "issueId") "issueId" ] in
    if hasErrors errors then Ret (ErrorHandler.handleValidationErrors errors)
    else
      let assigneeId :=
        if strictEq (prop args "assigneeId") (JStr "") then JNull
        else prop args "assigneeId" in
      let* issue := Client.updateIssue client (prop args "issueId")
        {| IssueUpdateInput.title := JUndefined;
           IssueUpdateInput.description := JUndefined;
           IssueUpdateInput.priority := JUndefined;
           IssueUpdateInput.assigneeId := assigneeId;
           IssueUpdateInput.projectId := JUndefined;
           IssueUpdateInput.stateId := JUndefined;
           IssueUpdateInput.labelIds := JUndefined |} in
      let message :=
        if truthy assigneeId
        then "✅ Assigned issue " +:+ LinearIssue.identifier issue +:+ " to "
             +:+ match LinearIssue.assignee issue with
                 | Some a => user_name a
                 | None => "undefined"
                 end
        else "✅ Unassigned issue " +:+ LinearIssue.identifier issue in
      Ret (ErrorHandler.success (message +:+ nl +:+ nl +:+ "URL: " +:+ LinearIssue.url issue)))
  (fun error => ErrorHandler.handle error "assign_issue").

Definition createUpdateStatusHandler (args : gmap string JsVal) : Prog LinearE MCPResponse :=
  tryCatch (
    let errors := Validator.collectErrors
      [ Validator.validateRequired (prop args "issueId") "issueId";
        Validator.validateRequired (prop args "stateId") "stateId" ] in
    if hasErrors errors then Ret (ErrorHandler.handleValidationErrors errors)
    else
      let* issue := Client.updateIssue client (prop args "issueId")
        {| IssueUpdateInput.title := JUndefined;
           IssueUpdateInput.description := JUndefined;
           IssueUpdateInput.priority := JUndefined;
           IssueUpdateInput.assigneeId := JUndefined;
           IssueUpdateInput.projectId := JUndefined;
           IssueUpdateInput.stateId := prop args "stateId";
           IssueUpdateInput.labelIds := JUndefined |} in
      Ret (ErrorHandler.success
             ("✅ Updated " +:+ LinearIssue.identifier issue +:+ " status to: "
              +:+ state_name (LinearIssue.state issue) +:+ nl +:+ nl
              +:+ "URL: " +:+ LinearIssue.url issue)))
  (fun error => ErrorHandler.handle error "update_status").

Definition projectLine (project : LinearProject.t) : string :=
  let lead :=
    match LinearProject.lead project with
    | Some l => " | Lead: " +:+ ref_name l
    | None => ""
    end in
  let dates :=
    match LinearProject.targetDate project with
    | Some d => if String.eqb d "" then "" else " | Target: " +:+ toLocaleDateString d
    | None => ""
    end in
  "- " +:+ LinearProject.name project +:+ " (" +:+ LinearProject.state project +:+ ")" +:+ nl
  +:+ "  Progress: " +:+ pretty (LinearProject.progress project) +:+ "%" +:+ lead +:+ dates +:+ nl
  +:+ "  " +:+ LinearProject.url project.

Definition createListProjectsHandler (args : gmap string JsVal) : Prog LinearE MCPResponse :=
  tryCatch (
    let* projects := Client.listProjects client (prop args "limit") in
    if (length projects =? 0)%nat
    then Ret (ErrorHandler.success "No projects found.")
    else
      let projectList := joinWith (nl +:+ nl) (map projectLine projects) in
      Ret (ErrorHandler.success
             ("Found " +:+ pretty (length projects) +:+ " project(s):" +:+ nl +:+ nl
              +:+ projectList)))
  (fun error => ErrorHandler.handle error "list_projects").

(** [d ? `${label}${new Date(d).toLocaleDateString()}` : ''] *)
Definition dateLine (label : string) (d : option string) : string :=
  match d with
  | Some d => if String.eqb d "" then "" else label +:+ toLocaleDateString d
  | None => ""
  end.

Definition createGetProjectHandler (args : gmap string JsVal) : Prog LinearE MCPResponse :=
  tryCatch (
    let errors := Validator.collectErrors
      [ Validator.validateRequired (prop args "projectId") "projectId" ] in
    if hasErrors errors then Ret (ErrorHandler.handleValidationErrors errors)
    else
      let* project := Client.getProject client (prop args "projectId") in
      let details := trim (
        nl +:+ "# " +:+ LinearProject.name project +:+ nl
        +:+ nl
        +:+ "**State:** " +:+ LinearProject.state project +:+ nl
        +:+ "**Progress:** " +:+ pretty (LinearProject.progress project) +:+ "%" +:+ nl
        +:+ "**Team:** " +:+ ref_name (LinearProject.team project) +:+ nl
        +:+ match LinearProject.lead project with
            | Some l => "**Lead:** " +:+ ref_name l
            | None => ""
            end +:+ nl
        +:+ dateLine "**Start Date:** " (LinearProject.startDate project) +:+ nl
        +:+ dateLine "**Target Date:** " (LinearProject.targetDate project) +:+ nl
        +:+ nl
        +:+ "## Description" +:+ nl
        +:+ Client.orElse (LinearProject.description project) "No description provided" +:+ nl
        +:+ nl
        +:+ "**URL:** " +:+ LinearProject.url project +:+ nl
        +:+ "      ") in
      Ret (ErrorHandler.success details))
  (fun error => ErrorHandler.handle error "get_project").

Definition createCreateProjectHandler (args : gmap string JsVal) : Prog LinearE MCPResponse :=
  tryCatch (
    let errors := Validator.collectErrors
      [ Validator.validateRequired (prop args "name") "name";
        Validator.validateString (prop args "name") "name" (Some 1) (Some 255) ] in
    if hasErrors errors then Ret (ErrorHandler.handleValidationErrors errors)
    else
      let* project := Client.createProject client (prop args "name") (prop args "description") in
      Ret (ErrorHandler.success
             ("✅ Created project: " +:+ LinearProject.name project +:+ nl +:+ nl
              +:+ "URL: " +:+ LinearProject.url project)))
  (fun error => ErrorHandler.handle error "create_project").

Definition createListTeamsHandler (_args : gmap string JsVal) : Prog LinearE MCPResponse :=
  tryCatch (
    let* teams := Client.listTeams client in
    if (length teams =? 0)%nat
    then Ret (ErrorHandler.success "No teams found.")
    else
      let teamList := joinWith (nl +:+ nl) (map (fun team =>
        let desc :=
          match LinearTeam.description team with
          | Some d => nl +:+ "  " +:+ d
          | None => ""
          end in
        "- " +:+ LinearTeam.name team +:+ " (" +:+ LinearTeam.key team +:+ ")" +:+ nl
        +:+ "  ID: " +:+ LinearTeam.id team +:+ desc) teams) in
      Ret (ErrorHandler.success
             ("Found " +:+ pretty (length teams) +:+ " team(s):" +:+ nl +:+ nl +:+ teamList)))
  (fun error => ErrorHandler.handle error "list_teams").

End Handlers.

(** ** src/server.ts *)

Definition ToolHandler : Type := gmap string JsVal -> Prog LinearE MCPResponse.

Record MCPServer : Type := {
  linearClient : LinearClient;
  tools : gmap string MCPTool;
  handlers : gmap string ToolHandler
}.

Module Server.

Definition registerTool (tool : MCPTool) (handler : ToolHandler) (this : MCPServer)
  : MCPServer :=
  {| linearClient := linearClient this;
     tools := <[name tool := tool]> (tools this);
     handlers := <[name tool := handler]> (handlers this) |}.

(** The twelve registrations of [setupHandlers], in their order. *)
Definition registrations (toLocaleDateString : string -> string) (client : LinearClient)
  : list (MCPTool * ToolHandler) :=
  [ (listIssuesTool, createListIssuesHandler client);
    (getIssueTool, createGetIssueHandler toLocaleDateString client);
    (createIssueTool, createCreateIssueHandler client);
    (updateIssueTool, createUpdateIssueHandler client);
    (addCommentTool, createAddCommentHandler client);
    (searchIssuesTool, createSearchIssuesHandler client);
    (assignIssueTool, createAssignIssueHandler client);
    (updateStatusTool, createUpdateStatusHandler client);
    (listProjectsTool, createListProjectsHandler toLocaleDateString client);
    (getProjectTool, createGetProjectHandler toLocaleDateString client);
    (createProjectTool, createCreateProjectHandler client);
    (listTeamsTool, createListTeamsHandler client) ].

(** The two maps once [setupHandlers] has registered the tools. *)
Definition setup (toLocaleDateString : string -> string) (client : LinearClient)
  : MCPServer :=
  foldl (fun srv th => registerTool (fst th) (snd th) srv)
        {| linearClient := client; tools := ∅; handlers := ∅ |}
        (registrations toLocaleDateString client).

(** [new MCPServer(linearClient)]: the constructor with [setupHandlers]. *)
Definition new (toLocaleDateString : string -> string) (client : LinearClient)
  : Prog LinearE MCPServer :=
  let this := setup toLocaleDateString client in
  let* _ := Logger.info ("Registered " +:+ pretty (size (tools this)) +:+ " tools") in
  Ret this.

(** The [ListToolsRequestSchema] handler. *)
Definition listTools (this : MCPServer) : list MCPTool :=
  snd <$> map_to_list (tools this).

(** The [CallToolRequestSchema] handler; [arguments] is
    [request.params.arguments], which may be left out. *)
Definition callTool (this : MCPServer) (toolName : string)
    (arguments : option (gmap string JsVal)) : Prog LinearE MCPResponse :=
  match handlers this !! toolName with
  | None => Throw (ErrorObj ("Unknown tool: " +:+ toolName))
  | Some handler =>
      let* _ := Logger.info ("Executing tool: " +:+ toolName) in
      handler (default ∅ arguments)
  end.

Definition start (this : MCPServer) : Prog LinearE unit :=
  let* _ := await ServerConnect in
  Logger.info "MCP Server started and connected via stdio".

End Server.

(** The server answering a sequence of [tools/call] requests in a world [W]:
    each is a tool name with its arguments. *)
Definition serve {W} (answer : forall X, LinearE X -> W -> X * W) (srv : MCPServer)
    (requests : list (string * option (gmap string JsVal))) (w : W) : W :=
  foldl (fun w rq => snd (run answer (Server.callTool srv (fst rq) (snd rq)) w)) w requests.


(** ** The entry point (src/index.ts) *)

(** [new LinearClient(apiKey, teamId)] *)
Definition newLinearClient (apiKey teamId : string) : Prog LinearE LinearClient :=
  let* _ := perform (SdkNew apiKey) in
  let* _ := Logger.info "Linear client initialized" in
  Ret {| apiKey := apiKey; teamId := teamId |}.

(** [!v] on a value of [process.env]. *)
Definition envMissing (v : option string) : bool :=
  match v with
  | Some s => String.eqb s ""
  | None => true
  end.

(** [main()]; [env] is [process.env] after [dotenv.config()]. *)
Definition main (toLocaleDateString : string -> string) (env : gmap string string)
  : Prog LinearE unit :=
  tryCatch (
    let apiKey := env !! "LINEAR_API_KEY" in
    let teamId := env !! "LINEAR_TEAM_ID" in
    if envMissing apiKey
    then Throw (ErrorObj "LINEAR_API_KEY environment variable is required")
    else if envMissing teamId
    then Throw (ErrorObj "LINEAR_TEAM_ID environment variable is required")
    else
      let* _ := Logger.info "Starting Linear MCP Agent..." in
      let* linearClient := newLinearClient (default "" apiKey) (default "" teamId) in
      let* server := Server.new toLocaleDateString linearClient in
      let* _ := Server.start server in
      Logger.info "Linear MCP Agent is ready")
  (fun error =>
     let* _ := Logger.error "Failed to start Linear MCP Agent:" error in
     Halt 1).

(** ** A reference tracker

    The Linear service is outside the repository. To run the programs above on
    concrete inputs this section gives the service a simple in-memory reading:
    issues, workflow states, users and projects by id, and what each SDK call
    does to them. Listings come in the order of the map, and a listing takes
    the first [first] entries. An argument of the wrong type is rejected. *)

Record Tracker : Type := {
  tr_issues : gmap string IssueNode;
  tr_states : gmap string StateInfo;
  tr_users : gmap string UserInfo;
  tr_projects : gmap string ProjectNode;
  tr_teams : list TeamNode;
  tr_comments : list (string * CommentNode);
  tr_log : list (string * string)
}.

Module Tracker.

Definition withIssues (w : Tracker) (issues : gmap string IssueNode) : Tracker :=
  {| tr_issues := issues; tr_states := tr_states w; tr_users := tr_users w;
     tr_projects := tr_projects w; tr_teams := tr_teams w;
     tr_comments := tr_comments w; tr_log := tr_log w |}.

Definition withProjects (w : Tracker) (projects : gmap string ProjectNode) : Tracker :=
  {| tr_issues := tr_issues w; tr_states := tr_states w; tr_users := tr_users w;
     tr_projects := projects; tr_teams := tr_teams w;
     tr_comments := tr_comments w; tr_log := tr_log w |}.

Definition withComments (w : Tracker) (comments : list (string * CommentNode)) : Tracker :=
  {| tr_issues := tr_issues w; tr_states := tr_states w; tr_users := tr_users w;
     tr_projects := tr_projects w; tr_teams := tr_teams w;
     tr_comments := comments; tr_log := tr_log w |}.

Definition withLog (w : Tracker) (log : list (string * string)) : Tracker :=
  {| tr_issues := tr_issues w; tr_states := tr_states w; tr_users := tr_users w;
     tr_projects := tr_projects w; tr_teams := tr_teams w;
     tr_comments := tr_comments w; tr_log := log |}.

Definition invalid {A} : Exc A := Rejected (ErrorObj "Argument Validation Error").
Definition notFound {A} : Exc A := Rejected (ErrorObj "Entity not found").

(** The first [first] entries of a listing. *)
Definition page {A} (first : JsVal) (l : list A) : Exc (list A) :=
  match first with
  | JNum n => if n <? 0 then invalid else Resolved (take (Z.to_nat n) l)
  | _ => invalid
  end.

Definition optMatches (want : option JsVal) (have : option string) : bool :=
  match want with
  | None => true
  | Some v => match have with Some s => strictEq v (JStr s) | None => false end
  end.

Definition matches (f : FilterObj) (i : IssueNode) : bool :=
  String.eqb (team_id (node_team i)) (f_team f)
  && optMatches (f_assignee f) (user_id <$> node_assignee i)
  && match f_priority f with
     | None => true
     | Some v => strictEq v (JNum (node_priority i))
     end
  && optMatches (f_stateType f) (state_type <$> node_state i)
  && optMatches (f_project f) (ref_id <$> node_project i).

Definition newIssue (w : Tracker) (id : string) (input : SdkCreateIssueInput) (title : string)
  : IssueNode :=
  {| node_id := id;
     node_identifier := id;
     node_title := title;
     node_description :=
       match IssueCreateInput.description (sent input) with
       | JStr d => Some d
       | _ => None
       end;
     node_priority :=
       match IssueCreateInput.priority (sent input) with
       | JNum n => n
       | _ => 0
       end;
     node_priorityLabel :=
       match IssueCreateInput.priority (sent input) with
       | JNum n => default "" (LINEAR_PRIORITY_MAP !! n)
       | _ => "No priority"
       end;
     node_state :=
       match IssueCreateInput.stateId (sent input) with
       | JStr s => tr_states w !! s
       | _ => None
       end;
     node_assignee :=
       match IssueCreateInput.assigneeId (sent input) with
       | JStr u => tr_users w !! u
       | _ => None
       end;
     node_project :=
       match IssueCreateInput.projectId (sent input) with
       | JStr p => (fun n => {| ref_id := pnode_id n; ref_name := pnode_name n |})
                     <$> tr_projects w !! p
       | _ => None
       end;
     node_team := {| team_id := sent_teamId input; team_name := ""; team_key := "" |};
     node_labels := [];
     node_creator := None;
     node_createdAt := "";
     node_updatedAt := "";
     node_url := "https://linear.app/issue/" +:+ id |}.

(** One field of an update: [JUndefined] leaves it, a value of the right type
    sets it, anything else is rejected. *)
Definition setTitle (v : JsVal) (i : IssueNode) : option IssueNode :=
  match v with
  | JUndefined => Some i
  | JStr s =>
      Some {| node_id := node_id i; node_identifier := node_identifier i; node_title := s;
              node_description := node_description i; node_priority := node_priority i;
              node_priorityLabel := node_priorityLabel i; node_state := node_state i;
              node_assignee := node_assignee i; node_project := node_project i;
              node_team := node_team i; node_labels := node_labels i;
              node_creator := node_creator i; node_createdAt := node_createdAt i;
              node_updatedAt := node_updatedAt i; node_url := node_url i |}
  | _ => None
  end.

Definition setDescription (v : JsVal) (i : IssueNode) : option IssueNode :=
  match v with
  | JUndefined => Some i
  | JStr s =>
      Some {| node_id := node_id i; node_identifier := node_identifier i;
              node_title := node_title i;
              node_description := Some s; node_priority := node_priority i;
              node_priorityLabel := node_priorityLabel i; node_state := node_state i;
              node_assignee := node_assignee i; node_project := node_project i;
              node_team := node_team i; node_labels := node_labels i;
              node_creator := node_creator i; node_createdAt := node_createdAt i;
              node_updatedAt := node_updatedAt i; node_url := node_url i |}
  | _ => None
  end.

Definition setPriority (v : JsVal) (i : IssueNode) : option IssueNode :=
  match v with
  | JUndefined => Some i
  | JNum n =>
      Some {| node_id := node_id i; node_identifier := node_identifier i;
              node_title := node_title i;
              node_description := node_description i; node_priority := n;
              node_priorityLabel := default "" (LINEAR_PRIORITY_MAP !! n);
              node_state := node_state i;
              node_assignee := node_assignee i; node_project := node_project i;
              node_team := node_team i; node_labels := node_labels i;
              node_creator := node_creator i; node_createdAt := node_createdAt i;
              node_updatedAt := node_updatedAt i; node_url := node_url i |}
  | _ => None
  end.

Definition putAssignee (a : option UserInfo) (i : IssueNode) : IssueNode :=
  {| node_id := node_id i; node_identifier := node_identifier i;
     node_title := node_title i;
     node_description := node_description i; node_priority := node_priority i;
     node_priorityLabel := node_priorityLabel i; node_state := node_state i;
     node_assignee := a; node_project := node_project i;
     node_team := node_team i; node_labels := node_labels i;
     node_creator := node_creator i; node_createdAt := node_createdAt i;
     node_updatedAt := node_updatedAt i; node_url := node_url i |}.

Definition setAssignee (w : Tracker) (v : JsVal) (i : IssueNode) : option IssueNode :=
  match v with
  | JUndefined => Some i
  | JNull => Some (putAssignee None i)
  | JStr u => (fun a => putAssignee (Some a) i) <$> tr_users w !! u
  | _ => None
  end.

Definition putState (st : StateInfo) (i : IssueNode) : IssueNode :=
  {| node_id := node_id i; node_identifier := node_identifier i;
     node_title := node_title i;
     node_description := node_description i; node_priority := node_priority i;
     node_priorityLabel := node_priorityLabel i; node_state := Some st;
     node_assignee := node_assignee i; node_project := node_project i;
     node_team := node_team i; node_labels := node_labels i;
     node_creator := node_creator i; node_createdAt := node_createdAt i;
     node_updatedAt := node_updatedAt i; node_url := node_url i |}.

Definition setState (w : Tracker) (v : JsVal) (i : IssueNode) : option IssueNode :=
  match v with
  | JUndefined => Some i
  | JStr s => (fun st => putState st i) <$> tr_states w !! s
  | _ => None
  end.

(** The reference tracker takes no project or label change through an
    update: the handlers never send one. *)
Definition applyUpdate (w : Tracker) (input : IssueUpdateInput.t) (i : IssueNode)
  : option IssueNode :=
  match IssueUpdateInput.projectId input, IssueUpdateInput.labelIds input with
  | JUndefined, JUndefined =>
      i1 ← setTitle (IssueUpdateInput.title input) i;
      i2 ← setDescription (IssueUpdateInput.description input) i1;
      i3 ← setPriority (IssueUpdateInput.priority input) i2;
      i4 ← setAssignee w (IssueUpdateInput.assigneeId input) i3;
      setState w (IssueUpdateInput.stateId input) i4
  | _, _ => None
  end.

Definition answer (X : Type) (ev : LinearE X) (w : Tracker) : X * Tracker :=
  match ev in LinearE X return X * Tracker with
  | LoggerCall method msg _ => (tt, withLog w ((method, msg) :: tr_log w))
  | SdkNew _ => (tt, w)
  | ServerConnect => (Resolved tt, w)
  | SdkIssues f first _ =>
      (page first (filter (fun i => matches f i = true) (snd <$> map_to_list (tr_issues w))), w)
  | SdkIssue (JStr id) =>
      (match tr_issues w !! id with Some i => Resolved i | None => notFound end, w)
  | SdkIssue _ => (invalid, w)
  | SdkCreateIssue input =>
      match IssueCreateInput.title (sent input) with
      | JStr t =>
          let id := fresh_string "ISSUE" (tr_issues w) in
          let i := newIssue w id input t in
          (Resolved (Some i), withIssues w (<[id := i]> (tr_issues w)))
      | _ => (invalid, w)
      end
  | SdkUpdateIssue (JStr id) input =>
      match tr_issues w !! id with
      | Some i =>
          match applyUpdate w input i with
          | Some i' => (Resolved (Some i'), withIssues w (<[id := i']> (tr_issues w)))
          | None => (invalid, w)
          end
      | None => (notFound, w)
      end
  | SdkUpdateIssue _ _ => (invalid, w)
  | SdkCreateComment (JStr id) (JStr body) =>
      match tr_issues w !! id with
      | Some _ =>
          let c := {| cnode_id := "comment-" +:+ pretty (length (tr_comments w));
                      cnode_body := body |} in
          (Resolved (Some c), withComments w ((id, c) :: tr_comments w))
      | None => (notFound, w)
      end
  | SdkCreateComment _ _ => (invalid, w)
  | SdkIssueSearch (JStr q) first team =>
      (page first
         (filter (fun i => (String.eqb (team_id (node_team i)) team
                            && (contains q (node_title i)
                                || contains q (default "" (node_description i)))) = true)
                 (snd <$> map_to_list (tr_issues w))), w)
  | SdkIssueSearch _ _ _ => (invalid, w)
  | SdkProjects team first =>
      (page first (filter (fun p => String.eqb (ref_id (pnode_team p)) team = true)
                          (snd <$> map_to_list (tr_projects w))), w)
  | SdkProject (JStr id) =>
      (match tr_projects w !! id with Some p => Resolved p | None => notFound end, w)
  | SdkProject _ => (invalid, w)
  | SdkCreateProject teamIds (JStr n) d =>
      let id := fresh_string "PROJECT" (tr_projects w) in
      let p := {| pnode_id := id; pnode_name := n;
                  pnode_description := match d with JStr s => Some s | _ => None end;
                  pnode_state := "planned"; pnode_progress := 0;
                  pnode_startDate := None; pnode_targetDate := None;
                  pnode_team := {| ref_id := default "" (head teamIds); ref_name := "" |};
                  pnode_lead := None;
                  pnode_url := "https://linear.app/project/" +:+ id |} in
      (Resolved (Some p), withProjects w (<[id := p]> (tr_projects w)))
  | SdkCreateProject _ _ _ => (invalid, w)
  | SdkTeams => (Resolved (tr_teams w), w)
  | SdkDeleteIssue (JStr id) =>
      (Resolved (bool_decide (is_Some (tr_issues w !! id))),
       withIssues w (delete id (tr_issues w)))
  | SdkDeleteIssue _ => (invalid, w)
  | SdkArchiveIssue (JStr id) =>
      (Resolved (bool_decide (is_Some (tr_issues w !! id))),
       withIssues w (delete id (tr_issues w)))
  | SdkArchiveIssue _ => (invalid, w)
  end.

End Tracker.

(** ** The backlog engine

    The classifier, the prioritizer, the router, the recorder and the
    orchestrator are Python modules of the repository ([agents/linear_agent])
    that are not among the sources at hand. This module follows the
    specification's text for them. What the specification leaves to the
    configuration is a field of [Config]; what it leaves open altogether (how
    a confidence is computed from the signals found, how a content hash is
    computed) is a variable of the section. *)

Module Engine.

Inductive Source : Type := UserAuthored | OpportunityGenerated.
Inductive Surface : Type := Solutions | App | Bridge.
Inductive Size : Type := Small | Medium | Large.
Inductive Status : Type := Candidate | Shaped | Ready | Parked | Discarded.
Inductive Route : Type := Agent | Chat | Manual.

Global Instance Surface_eq_dec : EqDecision Surface.
Proof. solve_decision. Defined.
Global Instance Status_eq_dec : EqDecision Status.
Proof. solve_decision. Defined.

(** Modelled from the spec: the ClassificationResult of section 3, with the
    signals sections 4.3 and 4.4 read from a classification (maintenance
    flavour, validated user or revenue signal, several repositories, scope
    ambiguous across conflicting constraints). *)
Record ClassificationResult : Type := {
  source : Source;
  surfaces : list Surface;
  size : Size;
  source_confidence : Q;
  surface_confidence : Q;
  size_confidence : Q;
  maintenance : bool;
  validated : bool;
  multi_repository : bool;
  ambiguous : bool
}.

(** Modelled from the spec: "a bounded integer/ordinal plus a rationale
    string". *)
Record PriorityScore : Type := { score : Z; rationale : string }.

(** Modelled from the spec: the artifact of a routing decision, "a
    machine-readable brief for agent, a prompt snippet for chat, nothing
    executable for manual". *)
Inductive Artifact : Type :=
| Brief (body : string)
| Prompt (body : string)
| NoArtifact.

Record RoutingDecision : Type := {
  route_of : Route;
  route_rationale : string;
  artifact : Artifact
}.

(** Modelled from the spec: the Ticket of section 3, with the priority and
    the routing decision the engine attaches to it. *)
Record Ticket : Type := {
  ticket_id : string;
  ticket_title : string;
  ticket_description : string;
  ticket_tags : list string;
  ticket_status : Status;
  ticket_repositories : list string;
  ticket_created : Z;
  ticket_priority : option PriorityScore;
  ticket_routing : option RoutingDecision
}.

(** Modelled from the spec: the flat configuration of section 6 (vocabulary,
    thresholds, deltas, bounds). *)
Record Config : Type := {
  opportunity_marker : string;
  relevance_signals : list string;
  solutions_signals : list string;
  app_signals : list string;
  large_signals : list string;
  maintenance_signals : list string;
  validated_signals : list string;
  ambiguity_signals : list string;
  medium_limit : nat;
  threshold : Q;
  base_score : Z;
  bridge_boost : Z;
  opportunity_boost : Z;
  maintenance_demotion : Z;
  speculative_demotion : Z;
  score_min : Z;
  score_max : Z
}.

(** Modelled from the spec: the content of a ticket, what the classifier
    reads ("ticket content"): title, description, tags and linked
    repositories. *)
Definition content (t : Ticket) : string * string * list string * list string :=
  (ticket_title t, ticket_description t, ticket_tags t, ticket_repositories t).

(** Modelled from the spec: "confidence below a configured threshold". *)
Definition below (c limit : Q) : bool := negb (Qle_bool limit c).

(** Modelled from the spec: "clamped to the configured priority range". *)
Definition clamp (lo hi x : Z) : Z := Z.max lo (Z.min hi x).

(** Modelled from the spec: "keyword/repository-pattern matching", the
    signals of [signals] found in the text or in a repository name. *)
Definition found (signals : list string) (text : string) (repositories : list string)
  : list string :=
  filter (fun k => (contains k text
                    || existsb (contains k) repositories) = true) signals.

(** Modelled from the spec: "signals ... are present". *)
Definition nonempty {A} (l : list A) : bool :=
  match l with [] => false | _ => true end.

Section Stages.

(** Modelled from the spec: the confidence an axis gets from the number of
    signals found for it (the spec leaves the formula open). *)
Variable confidence : nat -> Q.

(** Modelled from the spec: the "content hash" of a ticket (the spec leaves
    the function open). *)
Variable content_hash : string * string * list string * list string -> N.

Variable cfg : Config.

(** Modelled from the spec: section 4.1. Source from the marker tag, else
    user-authored; "bridge" when signals of both other surfaces are present;
    size from the number of signals; a confidence under the threshold degrades
    the size to the smallest; empty content gives size small, no surface and
    confidence 0. *)
Definition classify (t : Ticket) : ClassificationResult :=
  let text := ticket_title t +:+ " " +:+ ticket_description t in
  let src :=
    if existsb (String.eqb (opportunity_marker cfg)) (ticket_tags t)
    then OpportunityGenerated else UserAuthored in
  if String.eqb (ticket_title t) "" && String.eqb (ticket_description t) ""
  then {| source := src; surfaces := []; size := Small;
          source_confidence := 0; surface_confidence := 0; size_confidence := 0;
          maintenance := false; validated := false;
          multi_repository := false; ambiguous := false |}
  else
    let sol := found (solutions_signals cfg) text (ticket_repositories t) in
    let app := found (app_signals cfg) text (ticket_repositories t) in
    let big := found (large_signals cfg) text (ticket_repositories t) in
    let n := (length sol + length app + length big)%nat in
    let many := (1 <? length (ticket_repositories t))%nat in
    let size_conf := confidence n in
    let measured :=
      if nonempty big || many then Large
      else if (n <=? 1)%nat then Small
      else if (n <=? medium_limit cfg)%nat then Medium
      else Large in
    {| source := src;
       surfaces :=
         if nonempty sol && nonempty app then [Bridge; Solutions; App]
         else if nonempty sol then [Solutions]
         else if nonempty app then [App]
         else [];
       size := if below size_conf (threshold cfg) then Small else measured;
       source_confidence :=
         if existsb (String.eqb (opportunity_marker cfg)) (ticket_tags t) then 1 else 0;
       surface_confidence := confidence (length sol + length app);
       size_confidence := size_conf;
       maintenance :=
         nonempty (found (maintenance_signals cfg) text (ticket_repositories t));
       validated :=
         nonempty (found (validated_signals cfg) text (ticket_repositories t));
       multi_repository := many;
       ambiguous :=
         nonempty (found (ambiguity_signals cfg) text (ticket_repositories t)) |}.

(** Modelled from the spec: the four (condition, delta) rules of section 4.3,
    in the order the section lists them. *)
Definition deltas (c : ClassificationResult) : list (string * Z) :=
  (if bool_decide (Bridge ∈ surfaces c) then [("bridge", bridge_boost cfg)] else [])
  ++ (if match source c with OpportunityGenerated => true | UserAuthored => false end
         && negb (below (source_confidence c) (threshold cfg))
      then [("opportunity", opportunity_boost cfg)] else [])
  ++ (if bool_decide (surfaces c = [Solutions]) && maintenance c
      then [("maintenance", - maintenance_demotion cfg)] else [])
  ++ (if negb (validated c) then [("speculative", - speculative_demotion cfg)] else []).

(** Modelled from the spec: "Final score is clamped to the configured
    priority range; rationale is the ordered list of applied deltas". *)
Definition prioritize (c : ClassificationResult) : PriorityScore :=
  let applied := deltas c in
  {| score := clamp (score_min cfg) (score_max cfg)
                    (foldl (fun acc d => acc + snd d) (base_score cfg) applied);
     rationale := joinWith "; " (map (fun d => fst d +:+ ":" +:+ pretty (snd d)) applied) |}.

(** Modelled from the spec: the decision table of section 4.4, in its
    precedence order. The artifact keeps its kind and is written from what
    [route] receives. *)
Definition route (c : ClassificationResult) (p : PriorityScore) : RoutingDecision :=
  if below (size_confidence c) (threshold cfg)
     || below (surface_confidence c) (threshold cfg)
     || ambiguous c
  then {| route_of := Manual; route_rationale := "low confidence or ambiguous scope";
          artifact := NoArtifact |}
  else if match size c with Large => true | _ => false end || multi_repository c
  then {| route_of := Agent; route_rationale := "large or multi-repository scope";
          artifact := Brief ("priority " +:+ pretty (score p) +:+ "; " +:+ rationale p) |}
  else {| route_of := Chat; route_rationale := "small or medium single-repository scope";
          artifact := Prompt ("priority " +:+ pretty (score p) +:+ "; " +:+ rationale p) |}.

(** Modelled from the spec: what an AuditEntry snapshots. *)
Inductive Payload : Type :=
| OfTicket (t : Ticket)
| OfClassification (c : ClassificationResult)
| OfPriority (p : PriorityScore)
| OfRouting (r : RoutingDecision)
| OfError (msg : string)
| Nothing.

(** Modelled from the spec: "{timestamp, ticket id, stage, input snapshot,
    output snapshot, outcome}". *)
Record AuditEntry : Type := {
  entry_time : Z;
  entry_ticket : string;
  entry_stage : string;
  entry_input : Payload;
  entry_output : Payload;
  entry_outcome : string
}.

(** Modelled from the spec: the snapshot "keyed by ticket id ... (last-seen
    content hash, last classification result)". *)
Record Snapshot : Type := { seen_hash : N; seen_classification : ClassificationResult }.

(** Modelled from the spec: the persisted state of section 6 (the audit log,
    oldest entry first, and the snapshots) with the backlog the tracker
    holds. *)
Record State : Type := {
  backlog : list Ticket;
  audit : list AuditEntry;
  snapshots : gmap string Snapshot
}.

(** Modelled from the spec: [record(stage, input, output)] "always succeeds,
    appends one AuditEntry". *)
Definition record (now : Z) (ticket stage : string) (input output : Payload) (st : State)
  : State :=
  {| backlog := backlog st;
     audit := audit st ++ [ {| entry_time := now; entry_ticket := ticket;
                               entry_stage := stage; entry_input := input;
                               entry_output := output; entry_outcome := "ok" |} ];
     snapshots := snapshots st |}.

(** Modelled from the spec: [record_failure(stage, input, error)] "appends a
    failure AuditEntry"; the improvement ticket it may synthesize is handed to
    the tracker and is no part of this state. *)
Definition record_failure (now : Z) (ticket stage : string) (input : Payload)
    (err : string) (st : State) : State :=
  {| backlog := backlog st;
     audit := audit st ++ [ {| entry_time := now; entry_ticket := ticket;
                               entry_stage := stage; entry_input := input;
                               entry_output := OfError err;
                               entry_outcome := "failure" |} ];
     snapshots := snapshots st |}.

(** Modelled from the spec: [analyze(window)] scans the last [window] entries
    for failures and "only proposes": it returns the failed entries and
    changes nothing. *)
Definition analyze (window : nat) (st : State) : list AuditEntry :=
  filter (fun e => String.eqb (entry_outcome e) "failure" = true)
         (drop (length (audit st) - window) (audit st)).

(** Modelled from the spec: the short-circuit of section 6. A snapshot with
    the hash of the ticket's content answers for the classifier; otherwise the
    classifier runs and its result is remembered. *)
Definition classify_once (t : Ticket) (st : State) : ClassificationResult * State :=
  let h := content_hash (content t) in
  let fresh_run :=
    let c := classify t in
    (c, {| backlog := backlog st; audit := audit st;
           snapshots := <[ticket_id t := {| seen_hash := h; seen_classification := c |}]>
                          (snapshots st) |}) in
  match snapshots st !! ticket_id t with
  | Some s => if N.eqb (seen_hash s) h then (seen_classification s, st) else fresh_run
  | None => fresh_run
  end.

(** Modelled from the spec: classify, then prioritize, then route, each stage
    observed by the recorder. *)
Definition pipeline (now : Z) (t : Ticket) (st : State)
  : (ClassificationResult * PriorityScore * RoutingDecision) * State :=
  let '(c, st1) := classify_once t st in
  let st2 := record now (ticket_id t) "classify" (OfTicket t) (OfClassification c) st1 in
  let p := prioritize c in
  let st3 := record now (ticket_id t) "prioritize" (OfClassification c) (OfPriority p) st2 in
  let r := route c p in
  let st4 := record now (ticket_id t) "route" (OfPriority p) (OfRouting r) st3 in
  ((c, p, r), st4).

(** *** The lifecycle and the operations of the orchestrator *)

(** Modelled from the spec: the state with another backlog. *)
Definition with_backlog (b : list Ticket) (st : State) : State :=
  {| backlog := b; audit := audit st; snapshots := snapshots st |}.

(** Modelled from the spec: the partial mutation of a ticket (status,
    priority, routing decision); everything else is kept. *)
Definition update_ticket (status : Status) (p : option PriorityScore)
    (r : option RoutingDecision) (t : Ticket) : Ticket :=
  {| ticket_id := ticket_id t; ticket_title := ticket_title t;
     ticket_description := ticket_description t; ticket_tags := ticket_tags t;
     ticket_status := status; ticket_repositories := ticket_repositories t;
     ticket_created := ticket_created t;
     ticket_priority := p; ticket_routing := r |}.

(** Modelled from the spec: the tracker's [update_ticket(id, fields)]; the
    ticket with this id is replaced, no ticket is added or dropped. *)
Definition store (t : Ticket) (st : State) : State :=
  with_backlog
    (map (fun u => if String.eqb (ticket_id u) (ticket_id t) then t else u) (backlog st)) st.

(** Modelled from the spec: section 4.5. A candidate with no relevance signal
    is discarded before the classifier runs; a relevant one whose
    classification is under the threshold is parked; otherwise it is shaped,
    then prioritized and routed, and ready. A ticket in any other status is
    left as it is. *)
Definition triage_ticket (now : Z) (t : Ticket) (st : State) : State :=
  match ticket_status t with
  | Candidate =>
      let text := ticket_title t +:+ " " +:+ ticket_description t in
      if negb (nonempty (found (relevance_signals cfg) text (ticket_repositories t)))
      then
        record now (ticket_id t) "lifecycle" (OfTicket t) Nothing
          (store (update_ticket Discarded None None t) st)
      else
        let '(c, st1) := classify_once t st in
        let st2 := record now (ticket_id t) "classify" (OfTicket t) (OfClassification c) st1 in
        if below (surface_confidence c) (threshold cfg)
           || below (size_confidence c) (threshold cfg)
        then
          record now (ticket_id t) "lifecycle" (OfClassification c) Nothing
            (store (update_ticket Parked None None t) st2)
        else
          let p := prioritize c in
          let st3 :=
            record now (ticket_id t) "prioritize" (OfClassification c) (OfPriority p)
              (store (update_ticket Shaped None None t) st2) in
          let r := route c p in
          record now (ticket_id t) "route" (OfPriority p) (OfRouting r)
            (store (update_ticket Ready (Some p) (Some r) t) st3)
  | _ => st
  end.

(** Modelled from the spec: [triage] "runs the full pipeline over all
    candidate tickets in scope". *)
Definition triage (now : Z) (st : State) : State :=
  foldl (fun s t => triage_ticket now t s) st
        (filter (fun t => ticket_status t = Candidate) (backlog st)).

(** Modelled from the spec: the PriorityScore a ticket is ranked by. *)
Definition score_of (t : Ticket) : Z := from_option score (score_min cfg) (ticket_priority t).

(** Modelled from the spec: "ordered by PriorityScore descending, ties broken
    by earliest creation timestamp"; [outranks a b] when [a] comes no later
    than [b]. *)
Definition outranks (a b : Ticket) : Prop :=
  score_of b < score_of a
  \/ (score_of a = score_of b /\ ticket_created a <= ticket_created b).

(** Modelled from the spec: the order of [next] can be decided. *)
Global Instance outranks_dec a b : Decision (outranks a b).
Proof. unfold outranks. apply _. Defined.

(** Modelled from the spec: [next(count)] "returns the top-N ready tickets
    ordered by PriorityScore descending, ties broken by earliest creation
    timestamp". *)
Definition next (count : nat) (st : State) : list Ticket :=
  take count (merge_sort outranks (filter (fun t => ticket_status t = Ready) (backlog st))).

(** Modelled from the spec: [inspect(ticket_key)], the last classification
    with the priority and the routing decision the ticket carries. *)
Definition inspect (key : string) (st : State)
  : option (option ClassificationResult * option PriorityScore * option RoutingDecision) :=
  match find (fun t => String.eqb (ticket_id t) key) (backlog st) with
  | Some t => Some (seen_classification <$> snapshots st !! key,
                    ticket_priority t, ticket_routing t)
  | None => None
  end.

(** Modelled from the spec: [clean_project(project_key)], classification and
    prioritization rerun on every ticket tagged with the project, whatever its
    status; the status is kept. *)
Definition clean_ticket (now : Z) (t : Ticket) (st : State) : State :=
  let '(c, st1) := classify_once t st in
  let st2 := record now (ticket_id t) "classify" (OfTicket t) (OfClassification c) st1 in
  let p := prioritize c in
  record now (ticket_id t) "prioritize" (OfClassification c) (OfPriority p)
    (store (update_ticket (ticket_status t) (Some p) (ticket_routing t) t) st2).

(** Modelled from the spec: [clean_project] over the tickets of the
    project. *)
Definition clean_project (now : Z) (project_key : string) (st : State) : State :=
  foldl (fun s t => clean_ticket now t s) st
        (filter (fun t => existsb (String.eqb project_key) (ticket_tags t) = true) (backlog st)).

(** Modelled from the spec: the external reset, which "returns a ticket to
    candidate". *)
Definition reset (key : string) (st : State) : State :=
  with_backlog
    (map (fun u => if String.eqb (ticket_id u) key
                   then update_ticket Candidate None None u else u) (backlog st)) st.

(** Modelled from the spec: the operations of section 6 and of the
    recorder, which a caller may ask for in any order. *)
Inductive Operation : Type :=
| DoTriage (now : Z)
| DoNext (count : nat)
| DoInspect (key : string)
| DoCleanProject (now : Z) (project_key : string)
| DoRecord (now : Z) (ticket stage : string) (input output : Payload)
| DoRecordFailure (now : Z) (ticket stage : string) (input : Payload) (err : string)
| DoAnalyze (window : nat)
| DoReset (key : string).

(** Modelled from the spec: what each operation does to the state. *)
Definition perform_operation (st : State) (op : Operation) : State :=
  match op with
  | DoTriage now => triage now st
  | DoNext _ | DoInspect _ | DoAnalyze _ => st
  | DoCleanProject now key => clean_project now key st
  | DoRecord now ticket stage input output => record now ticket stage input output st
  | DoRecordFailure now ticket stage input err => record_failure now ticket stage input err st
  | DoReset key => reset key st
  end.

End Stages.

End Engine.

(** ** Sample data

    A client, a tracker holding one ticket, and an engine configuration, on
    which the programs and the stages are run in the examples below. *)

Definition demo_client : LinearClient := {| apiKey := "lin_api_key"; teamId := "team-1" |}.

Definition demo_state (id : string) : StateInfo :=
  {| state_id := id; state_name := id; state_type := "backlog" |}.

Definition demo_issue (id : string) (st : string) (priority : Z) : IssueNode :=
  {| node_id := id; node_identifier := id; node_title := "Onboarding flow";
     node_description := None; node_priority := priority; node_priorityLabel := "";
     node_state := Some (demo_state st); node_assignee := None; node_project := None;
     node_team := {| team_id := "team-1"; team_name := "Core"; team_key := "ENG" |};
     node_labels := []; node_creator := None;
     node_createdAt := "2026-01-30T00:00:00.000Z";
     node_updatedAt := "2026-01-30T00:00:00.000Z";
     node_url := "https://linear.app/issue/" +:+ id |}.

Definition demo_tracker : Tracker :=
  {| tr_issues := {[ "ENG-1" := demo_issue "ENG-1" "discarded" 2 ]};
     tr_states := list_to_map ((fun s => (s, demo_state s))
                    <$> ["candidate"; "shaped"; "ready"; "parked"; "discarded"]);
     tr_users := ∅; tr_projects := ∅; tr_teams := []; tr_comments := []; tr_log := [] |}.

Definition demo_config : Engine.Config :=
  {| Engine.opportunity_marker := "source:opportunity-agent";
     Engine.relevance_signals := ["mapache"; "onboarding"];
     Engine.solutions_signals := ["solutions"; "web app"];
     Engine.app_signals := ["conversational"; "mapache.app"];
     Engine.large_signals := ["redesign"; "cross-cutting"];
     Engine.maintenance_signals := ["maintenance"; "cleanup"];
     Engine.validated_signals := ["customer"; "revenue"];
     Engine.ambiguity_signals := ["unclear"];
     Engine.medium_limit := 3%nat;
     Engine.threshold := 1 # 2;
     Engine.base_score := 2;
     Engine.bridge_boost := 2;
     Engine.opportunity_boost := 1;
     Engine.maintenance_demotion := 1;
     Engine.speculative_demotion := 1;
     Engine.score_min := 0;
     Engine.score_max := 4 |}.

Definition demo_confidence (n : nat) : Q :=
  match n with O => 0 | S O => 3 # 5 | _ => 9 # 10 end.

Definition demo_hash (c : string * string * list string * list string) : N :=
  N.of_nat (String.length (fst (fst (fst c))) + 31 * String.length (snd (fst (fst c)))).

Definition demo_ticket (status : Engine.Status) : Engine.Ticket :=
  {| Engine.ticket_id := "MAP-7";
     Engine.ticket_title := "Mirror onboarding flow into conversational OS";
     Engine.ticket_description := "Reuse the solutions GUI for a paying customer";
     Engine.ticket_tags := ["source:opportunity-agent"];
     Engine.ticket_status := status;
     Engine.ticket_repositories := ["mapache-solutions"; "mapache-app"];
     Engine.ticket_created := 1769731200;
     Engine.ticket_priority := None;
     Engine.ticket_routing := None |}.

Definition demo_engine : Engine.State :=
  {| Engine.backlog := [demo_ticket Engine.Candidate];
     Engine.audit := [];
     Engine.snapshots := ∅ |}.

(** ** Observations on programs

    What the properties of the handlers below speak of: which events change
    the tracker, how many of them a program raises, and two more worlds to run
    the programs in. *)

(** The events that change something in the tracker. *)
Definition isMutation {X} (ev : LinearE X) : bool :=
  match ev with
  | SdkCreateIssue _ | SdkUpdateIssue _ _ | SdkCreateComment _ _
  | SdkCreateProject _ _ _ | SdkDeleteIssue _ | SdkArchiveIssue _ => true
  | _ => false
  end.

(** No path of [p] raises more than [n] events that change the tracker. *)
Fixpoint mutatesAtMost {A} (n : nat) (p : Prog LinearE A) : Prop :=
  match p with
  | Ret _ | Throw _ | Halt _ => True
  | Vis ev k =>
      if isMutation ev
      then match n with
           | O => False
           | S m => forall x, mutatesAtMost m (k x)
           end
      else forall x, mutatesAtMost n (k x)
  end.


(** The events that touch an existing ticket touch the ticket [issueId]. *)
Definition touchesOnly (issueId : JsVal) {X} (ev : LinearE X) : Prop :=
  match ev with
  | SdkUpdateIssue i _ | SdkCreateComment i _ => i = issueId
  | SdkDeleteIssue _ | SdkArchiveIssue _ => False
  | _ => True
  end.

(** A world in which every creation and update is answered by a payload
    with no entity in it ([payload.issue], [payload.comment] and
    [payload.project] are [undefined]), and every listing is empty. *)
Definition hollow (X : Type) (ev : LinearE X) (w : unit) : X * unit :=
  match ev in LinearE X return X * unit with
  | LoggerCall _ _ _ | SdkNew _ => (tt, w)
  | ServerConnect => (Resolved tt, w)
  | SdkIssues _ _ _ | SdkIssueSearch _ _ _ => (Resolved [], w)
  | SdkIssue _ => (Rejected (ErrorObj "Entity not found"), w)
  | SdkCreateIssue _ | SdkUpdateIssue _ _ => (Resolved None, w)
  | SdkCreateComment _ _ => (Resolved None, w)
  | SdkProjects _ _ => (Resolved [], w)
  | SdkProject _ => (Rejected (ErrorObj "Entity not found"), w)
  | SdkCreateProject _ _ _ => (Resolved None, w)
  | SdkTeams => (Resolved [], w)
  | SdkDeleteIssue _ | SdkArchiveIssue _ => (Resolved false, w)
  end.

(** A world that keeps the calls of the logger, newest first, and rejects
    every call of the SDK with [e]. *)
Definition recording (e : JsThrown) (X : Type) (ev : LinearE X) (w : list (string * string))
  : X * list (string * string) :=
  match ev in LinearE X return X * list (string * string) with
  | LoggerCall method msg _ => (tt, (method, msg) :: w)
  | SdkNew _ => (tt, w)
  | ServerConnect => (Resolved tt, w)
  | SdkIssues _ _ _ | SdkIssueSearch _ _ _ => (Rejected e, w)
  | SdkIssue _ => (Rejected e, w)
  | SdkCreateIssue _ | SdkUpdateIssue _ _ => (Rejected e, w)
  | SdkCreateComment _ _ => (Rejected e, w)
  | SdkProjects _ _ => (Rejected e, w)
  | SdkProject _ => (Rejected e, w)
  | SdkCreateProject _ _ _ => (Rejected e, w)
  | SdkTeams => (Rejected e, w)
  | SdkDeleteIssue _ | SdkArchiveIssue _ => (Rejected e, w)
  end.

(** The response [ErrorHandler.handle] returns for [error]. *)
Definition errorResponse (error : JsThrown) : MCPResponse :=
  {| content := [ {| type := "text"; text := "Error: " +:+ ErrorHandler.errorMessage error |} ];
     isError := Some true |}.

(** The names [setupHandlers] registers. *)
Definition toolNames : list string :=
  [ "list_issues"; "get_issue"; "create_issue"; "update_issue"; "add_comment";
    "search_issues"; "assign_issue"; "update_status"; "list_projects"; "get_project";
    "create_project"; "list_teams" ].

(** * Properties *)

(** ** Programs *)

Section ProgFacts.
Context {E : Type -> Type} {A : Type}.

Lemma ends_bind {B} (R : B -> Prop) T H (p : Prog E A) (f : A -> Prog E B) :
  ends (fun a => ends R T H (f a)) T H p -> ends R T H (bind p f).
Proof.
  induction p as [a|e|c|X ev k IH]; simpl; auto.
Qed.

Lemma ends_tryCatch (R : A -> Prop) T H (p : Prog E A) (h : JsThrown -> Prog E A) :
  ends R (fun e => ends R T H (h e)) H p -> ends R T H (tryCatch p h).
Proof.
  induction p as [a|e|c|X ev k IH]; simpl; auto.
Qed.

Lemma allEvents_bind {B} (P : forall X, E X -> Prop) (p : Prog E A) (f : A -> Prog E B) :
  allEvents P p -> (forall a, allEvents P (f a)) -> allEvents P (bind p f).
Proof.
  intros Hp Hf. induction p as [a|e|c|X ev k IH]; simpl in *; auto.
  destruct Hp as [Hev Hk]. split; auto.
Qed.

Lemma allEvents_tryCatch (P : forall X, E X -> Prop) (p : Prog E A) (h : JsThrown -> Prog E A) :
  allEvents P p -> (forall e, allEvents P (h e)) -> allEvents P (tryCatch p h).
Proof.
  intros Hp Hh. induction p as [a|e|c|X ev k IH]; simpl in *; auto.
  destruct Hp as [Hev Hk]. split; auto.
Qed.

(** A run ends the way [ends] says, and the events it meets are those
    [allEvents] speaks of. *)
Lemma run_ends {W} (answer : forall X, E X -> W -> X * W) R T H (p : Prog E A) (w : W) :
  ends R T H p ->
  match fst (run answer p w) with
  | Returned a => R a
  | Raised e => T e
  | Exited c => H c
  end.
Proof.
  revert w. induction p as [a|e|c|X ev k IH]; simpl; intros w Hp; auto.
  destruct (answer X ev w) as [x w']. apply IH, Hp.
Qed.

Lemma run_returns {W} (answer : forall X, E X -> W -> X * W) (Q : A -> Prop)
    (p : Prog E A) (w : W) :
  alwaysReturns Q p -> exists a, fst (run answer p w) = Returned a /\ Q a.
Proof.
  intros Hp. pose proof (run_ends answer _ _ _ p w Hp) as Hr.
  destruct (fst (run answer p w)); [eauto | done | done].
Qed.

Lemma run_invariant {W} (answer : forall X, E X -> W -> X * W)
    (P : forall X, E X -> Prop) (I : W -> Prop) (p : Prog E A) (w : W) :
  (forall X (ev : E X) w, P X ev -> I w -> I (snd (answer X ev w))) ->
  allEvents P p -> I w -> I (snd (run answer p w)).
Proof.
  intros Hstep. revert w. induction p as [a|e|c|X ev k IH]; simpl; intros w Hp Hw; auto.
  destruct Hp as [Hev Hk]. specialize (Hstep X ev w Hev Hw).
  destruct (answer X ev w) as [x w']. simpl in Hstep. apply IH; auto.
Qed.

End ProgFacts.


(** ** Tactics for the handlers *)

Ltac unfold_programs :=
  unfold createListIssuesHandler, createGetIssueHandler, createCreateIssueHandler,
    createUpdateIssueHandler, createAddCommentHandler, createSearchIssuesHandler,
    createAssignIssueHandler, createUpdateStatusHandler, createListProjectsHandler,
    createGetProjectHandler, createCreateProjectHandler, createListTeamsHandler,
    Client.listIssues, Client.getIssue, Client.createIssue, Client.updateIssue,
    Client.addComment, Client.searchIssues, Client.listProjects, Client.getProject,
    Client.createProject, Client.listTeams, Client.logAndRethrow,
    ErrorHandler.handle, Logger.info, Logger.error, await, perform.

(** Walks a program along [tryCatch], [bind], the answers of its events and
    the tests it branches on. *)
Ltac walk_ends :=
  repeat first
    [ apply ends_tryCatch
    | apply ends_bind
    | progress cbn [ends bind tryCatch]
    | match goal with
      | |- forall _, _ => intro
      | |- True => exact I
      | |- ends _ _ _ (if ?b then _ else _) => destruct b
      | |- ends _ _ _ (match ?x with _ => _ end) => destruct x
      end ].

Ltac walk_events :=
  repeat first
    [ apply allEvents_tryCatch
    | apply allEvents_bind
    | progress cbn [allEvents bind tryCatch isDelete]
    | match goal with
      | |- forall _, _ => intro
      | |- True => exact I
      | |- _ /\ _ => split
      | |- _ = _ => reflexivity
      | |- allEvents _ (if ?b then _ else _) => destruct b
      | |- allEvents _ (match ?x with _ => _ end) => destruct x
      end ].

(** One goal for each registered handler, on arbitrary arguments. *)
Ltac each_handler :=
  repeat first [ apply List.Forall_nil | apply List.Forall_cons ];
  cbn [snd]; intros args; unfold_programs.

Lemma handlers_return fmt client :
  Forall (fun th => forall args, alwaysReturns (fun _ => True) (snd th args))
         (Server.registrations fmt client).
Proof.
  unfold Server.registrations, alwaysReturns.
  each_handler; walk_ends.
Qed.

Lemma handlers_never_delete fmt client :
  Forall (fun th => forall args, allEvents (fun X ev => isDelete ev = false) (snd th args))
         (Server.registrations fmt client).
Proof.
  unfold Server.registrations.
  each_handler; walk_events.
Qed.

(** ** The validator *)

Lemma hasErrors_true errors : errors <> [] -> hasErrors errors = true.
Proof. destruct errors; [done | reflexivity]. Qed.

(** The shape every validating handler has: when a check fails the [try]
    block returns at once. *)
Lemma validation_guard errors (p : Prog LinearE MCPResponse) h :
  errors <> [] ->
  tryCatch (if hasErrors errors then Ret (ErrorHandler.handleValidationErrors errors) else p) h
  = Ret (ErrorHandler.handleValidationErrors errors).
Proof. intros Hne. rewrite (hasErrors_true _ Hne). reflexivity. Qed.

Lemma validateRequired_None value fieldName :
  Validator.validateRequired value fieldName = None <->
  value <> JUndefined /\ value <> JNull /\ value <> JStr "".
Proof.
  unfold Validator.validateRequired.
  destruct value as [| |b|n|s|l|f]; cbn.
  all: try (split; [discriminate | intros (? & ? & ?); congruence]).
  all: try (split; [intros _; repeat split; discriminate | reflexivity]).
  destruct s as [|c s]; cbn.
  - split; [discriminate | intros (? & ? & ?); congruence].
  - split; [intros _; repeat split; discriminate | reflexivity].
Qed.

Lemma title_checks_fail args :
  (prop args "title" = JUndefined
   \/ prop args "title" = JStr ""
   \/ exists s, prop args "title" = JStr s /\ (255 < String.length s)%nat) ->
  Validator.collectErrors
    [ Validator.validateRequired (prop args "title") "title";
      Validator.validateString (prop args "title") "title" (Some 1) (Some 255) ] <> [].
Proof.
  intros [-> | [-> | (s & -> & Hlen)]]; try done.
  unfold Validator.validateRequired, Validator.validateString.
  destruct (strictEq (JStr s) JUndefined || strictEq (JStr s) JNull
            || strictEq (JStr s) (JStr "")); [done|].
  cbn [Validator.collectErrors negb andb Z.eqb].
  destruct (Z.of_nat (String.length s) <? 1) eqn:H1; [done|].
  destruct (255 <? Z.of_nat (String.length s)) eqn:H2; [done|].
  apply Z.ltb_ge in H2. lia.
Qed.

(** C10. A validating handler whose checks find an error returns the
    validation-error response and nothing else: the program is a bare [Ret],
    so no call of the Linear client (and no event at all) is made. This holds
    for the nine handlers that validate; for create_issue the checks fail in
    particular when the title is missing, empty or longer than 255
    characters. *)
Theorem validation_failure_makes_no_call (fmt : string -> string) (client : LinearClient)
    (args : gmap string JsVal) :
  let rejects (handler : ToolHandler) (checks : list (option ValidationError)) :=
    Validator.collectErrors checks <> [] ->
    handler args = Ret (ErrorHandler.handleValidationErrors (Validator.collectErrors checks)) in
  rejects (createCreateIssueHandler client)
    [ Validator.validateRequired (prop args "title") "title";
      Validator.validateString (prop args "title") "title" (Some 1) (Some 255) ]
  /\ rejects (createGetIssueHandler fmt client)
       [ Validator.validateRequired (prop args "issueId") "issueId" ]
  /\ rejects (createUpdateIssueHandler client)
       [ Validator.validateRequired (prop args "issueId") "issueId" ]
  /\ rejects (createAddCommentHandler client)
       [ Validator.validateRequired (prop args "issueId") "issueId";
         Validator.validateRequired (prop args "body") "body";
         Validator.validateString (prop args "body") "body" (Some 1) None ]
  /\ rejects (createSearchIssuesHandler client)
       [ Validator.validateRequired (prop args "query") "query";
         Validator.validateString (prop args "query") "query" (Some 1) None ]
  /\ rejects (createAssignIssueHandler client)
       [ Validator.validateRequired (prop args "issueId") "issueId" ]
  /\ rejects (createUpdateStatusHandler client)
       [ Validator.validateRequired (prop args "issueId") "issueId";
         Validator.validateRequired (prop args "stateId") "stateId" ]
  /\ rejects (createGetProjectHandler fmt client)
       [ Validator.validateRequired (prop args "projectId") "projectId" ]
  /\ rejects (createCreateProjectHandler client)
       [ Validator.validateRequired (prop args "name") "name";
         Validator.validateString (prop args "name") "name" (Some 1) (Some 255) ]
  /\ ((prop args "title" = JUndefined
       \/ prop args "title" = JStr ""
       \/ exists s, prop args "title" = JStr s /\ (255 < String.length s)%nat) ->
      exists errors, errors <> [] /\
        createCreateIssueHandler client args
        = Ret (ErrorHandler.handleValidationErrors errors)).
Proof.
  cbv zeta. repeat split; try (intros Hne; unfold_programs; exact (validation_guard _ _ _ Hne)).
  intros Htitle. eexists. split; [exact (title_checks_fail args Htitle)|].
  unfold_programs. exact (validation_guard _ _ _ (title_checks_fail args Htitle)).
Qed.

(** C10 on a call of create_issue with an empty title. *)
Lemma validation_failure_makes_no_call_witness :
  exists errors, errors <> [] /\
    createCreateIssueHandler demo_client {[ "title" := JStr "" ]}
    = Ret (ErrorHandler.handleValidationErrors errors).
Proof.
  destruct (validation_failure_makes_no_call id demo_client {[ "title" := JStr "" ]})
    as (_ & _ & _ & _ & _ & _ & _ & _ & _ & Htitle).
  apply Htitle. right. left. vm_compute. reflexivity.
Defined.

(** What the caller of create_issue reads when the title is empty. *)
Example create_issue_empty_title :
  createCreateIssueHandler demo_client {[ "title" := JStr ""; "priority" := JNum 1 ]}
  = Ret {| content :=
             [ {| type := "text";
                  text := "Validation errors:" +:+ nl
                          +:+ "- title: title is required" +:+ nl
                          +:+ "- title: title must be at least 1 characters" |} ];
           isError := Some true |}.
Proof. vm_compute. reflexivity. Qed.

(** ** Handlers always answer *)



(** ** Nothing is deleted *)

Lemma client_never_deletes (this : LinearClient) :
  let harmless {A} (p : Prog LinearE A) := allEvents (fun X ev => isDelete ev = false) p in
  (forall filter limit, harmless (Client.listIssues this filter limit))
  /\ (forall issueId, harmless (Client.getIssue this issueId))
  /\ (forall input, harmless (Client.createIssue this input))
  /\ (forall issueId input, harmless (Client.updateIssue this issueId input))
  /\ (forall issueId body, harmless (Client.addComment this issueId body))
  /\ (forall query limit, harmless (Client.searchIssues this query limit))
  /\ (forall limit, harmless (Client.listProjects this limit))
  /\ (forall projectId, harmless (Client.getProject this projectId))
  /\ (forall name description, harmless (Client.createProject this name description))
  /\ harmless (Client.listTeams this).
Proof.
  cbv zeta. repeat split; intros; unfold_programs; walk_events.
Qed.

(** What [setupHandlers] leaves in the map of handlers is what it
    registered. *)
Lemma registered_handler (l : list (MCPTool * ToolHandler)) (srv : MCPServer) toolName h :
  handlers (foldl (fun srv th => Server.registerTool (fst th) (snd th) srv) srv l)
    !! toolName = Some h ->
  h ∈ (snd <$> l) \/ handlers srv !! toolName = Some h.
Proof.
  revert srv. induction l as [|[t h'] l IH]; intros srv; cbn [foldl]; [auto|].
  intros Hl. destruct (IH _ Hl) as [Hin | Hhere].
  - left. rewrite fmap_cons. apply elem_of_cons. auto.
  - unfold Server.registerTool in Hhere. cbn [handlers fst snd] in Hhere.
    rewrite lookup_insert in Hhere. destruct (decide (name t = toolName)) as [Heq | Hne].
    + injection Hhere as ->. left. rewrite fmap_cons. apply elem_of_cons. auto.
    + auto.
Qed.

Lemma callTool_never_deletes fmt client toolName arguments :
  allEvents (fun X ev => isDelete ev = false)
            (Server.callTool (Server.setup fmt client) toolName arguments).
Proof.
  unfold Server.callTool.
  destruct (handlers (Server.setup fmt client) !! toolName) as [h|] eqn:Hh; [|exact I].
  apply registered_handler in Hh as [Hin | Hempty]; [|cbn [handlers] in Hempty; by rewrite lookup_empty in Hempty].
  apply list_elem_of_fmap in Hin as (th & -> & Hth).
  pose proof (handlers_never_delete fmt client) as Hall.
  rewrite Forall_forall in Hall.
  unfold Logger.info, perform. cbn [bind allEvents isDelete]. split; [reflexivity|].
  intros []. cbn [bind]. apply Hall, Hth.
Qed.

(** C5. No operation deletes a ticket. Every event a tool handler or a
    method of the [LinearClient] wrapper can raise is something other than a
    deletion or an archival: the calls that touch an existing ticket are
    [updateIssue] (a partial update) and [createComment]. Hence, in every
    world whose other calls keep the tickets it holds, a ticket that exists
    before a sequence of tool calls exists after it. *)
Theorem no_operation_deletes_a_ticket (W : Type)
    (answer : forall X, LinearE X -> W -> X * W) (holds : W -> string -> Prop)
    (fmt : string -> string) (client : LinearClient) :
  (forall X (ev : LinearE X) w ticket,
     isDelete ev = false -> holds w ticket -> holds (snd (answer X ev w)) ticket) ->
  Forall (fun th => forall args, allEvents (fun X ev => isDelete ev = false) (snd th args))
         (Server.registrations fmt client)
  /\ (let harmless {A} (p : Prog LinearE A) := allEvents (fun X ev => isDelete ev = false) p in
      (forall filter limit, harmless (Client.listIssues client filter limit))
      /\ (forall issueId, harmless (Client.getIssue client issueId))
      /\ (forall input, harmless (Client.createIssue client input))
      /\ (forall issueId input, harmless (Client.updateIssue client issueId input))
      /\ (forall issueId body, harmless (Client.addComment client issueId body))
      /\ (forall query limit, harmless (Client.searchIssues client query limit))
      /\ (forall limit, harmless (Client.listProjects client limit))
      /\ (forall projectId, harmless (Client.getProject client projectId))
      /\ (forall name description, harmless (Client.createProject client name description))
      /\ harmless (Client.listTeams client))
  /\ (forall requests w ticket,
        holds w ticket -> holds (serve answer (Server.setup fmt client) requests w) ticket).
Proof.
  intros Hframe. split; [apply handlers_never_delete|].
  split; [exact (client_never_deletes client)|].
  intros requests w ticket. revert w.
  induction requests as [|[toolName arguments] rest IH]; intros w Hw; cbn [serve foldl]; [done|].
  apply IH. cbn [fst snd].
  apply (run_invariant answer (fun X ev => isDelete ev = false) (fun w => holds w ticket));
    [intros; by apply Hframe | apply callTool_never_deletes | done].
Qed.

(** The reference tracker loses a ticket only to a deletion or an
    archival. *)
Lemma tracker_keeps_tickets X (ev : LinearE X) (w : Tracker) (ticket : string) :
  isDelete ev = false ->
  is_Some (tr_issues w !! ticket) ->
  is_Some (tr_issues (snd (Tracker.answer X ev w)) !! ticket).
Proof.
  intros Hev Hw.
  destruct ev; try discriminate Hev; cbn [Tracker.answer];
    repeat case_match; cbn [snd Tracker.withIssues Tracker.withLog Tracker.withComments
                              Tracker.withProjects tr_issues];
    try assumption;
    rewrite lookup_insert; case_decide; eauto.
Qed.

(** C5 on the reference tracker: ticket ENG-1 is still there after an update
    of its status, a comment and the creation of another issue. *)
Lemma no_operation_deletes_a_ticket_witness :
  is_Some (tr_issues
             (serve Tracker.answer (Server.setup id demo_client)
                [ ("update_status", Some {[ "issueId" := JStr "ENG-1"; "stateId" := JStr "ready" ]});
                  ("add_comment", Some {[ "issueId" := JStr "ENG-1"; "body" := JStr "triaged" ]});
                  ("create_issue", Some {[ "title" := JStr "Follow-up" ]}) ]
                demo_tracker) !! "ENG-1").
Proof.
  refine (proj2 (proj2 (no_operation_deletes_a_ticket Tracker Tracker.answer
                          (fun w ticket => is_Some (tr_issues w !! ticket))
                          id demo_client tracker_keeps_tickets)) _ demo_tracker "ENG-1" _).
  vm_compute. eauto.
Defined.

(** ** The entry point *)

(** C6. When it starts without [LINEAR_API_KEY] or without
    [LINEAR_TEAM_ID] (unset, or set to the empty string), [main] does two
    things only: it logs the error that names the missing variable (the key
    first, when both are missing) and exits with code 1. No SDK client is
    constructed, the server is not connected, and no request is served. *)
Theorem missing_configuration_is_fatal (fmt : string -> string) (env : gmap string string) :
  envMissing (env !! "LINEAR_API_KEY") = true \/ envMissing (env !! "LINEAR_TEAM_ID") = true ->
  exists variable,
    (variable = "LINEAR_API_KEY" \/ variable = "LINEAR_TEAM_ID")
    /\ envMissing (env !! variable) = true
    /\ main fmt env
       = Vis (LoggerCall "error" "Failed to start Linear MCP Agent:"
                (Some (ErrorObj (variable +:+ " environment variable is required"))))
             (fun _ => Halt 1)
    /\ (forall (W : Type) (answer : forall X, LinearE X -> W -> X * W) (w : W),
          fst (run answer (main fmt env) w) = Exited 1)
    /\ allEvents (fun X ev => match ev with LoggerCall _ _ _ => True | _ => False end)
                 (main fmt env).
Proof.
  intros Hmissing.
  assert (exists variable,
            (variable = "LINEAR_API_KEY" \/ variable = "LINEAR_TEAM_ID")
            /\ envMissing (env !! variable) = true
            /\ main fmt env
               = Vis (LoggerCall "error" "Failed to start Linear MCP Agent:"
                        (Some (ErrorObj (variable +:+ " environment variable is required"))))
                     (fun _ => Halt 1)) as (variable & Hvar & Hmiss & Hmain).
  { unfold main, Logger.error, perform.
    destruct (envMissing (env !! "LINEAR_API_KEY")) eqn:Hkey.
    - exists "LINEAR_API_KEY". auto.
    - destruct Hmissing as [? | Hteam]; [discriminate|].
      exists "LINEAR_TEAM_ID". rewrite Hteam. auto. }
  exists variable. repeat split; try assumption.
  - intros W answer w. rewrite Hmain. cbn [run]. by destruct (answer _ _ w).
  - rewrite Hmain. cbn [allEvents]. auto.
Qed.

(** C6 on an environment that sets the key and not the team. *)
Lemma missing_configuration_is_fatal_witness :
  exists variable,
    (variable = "LINEAR_API_KEY" \/ variable = "LINEAR_TEAM_ID")
    /\ envMissing (({[ "LINEAR_API_KEY" := "lin_api_key" ]} : gmap string string) !! variable) = true
    /\ main id {[ "LINEAR_API_KEY" := "lin_api_key" ]}
       = Vis (LoggerCall "error" "Failed to start Linear MCP Agent:"
                (Some (ErrorObj (variable +:+ " environment variable is required"))))
             (fun _ => Halt 1)
    /\ (forall (W : Type) (answer : forall X, LinearE X -> W -> X * W) (w : W),
          fst (run answer (main id {[ "LINEAR_API_KEY" := "lin_api_key" ]}) w) = Exited 1)
    /\ allEvents (fun X ev => match ev with LoggerCall _ _ _ => True | _ => False end)
                 (main id {[ "LINEAR_API_KEY" := "lin_api_key" ]}).
Proof.
  apply (missing_configuration_is_fatal id {[ "LINEAR_API_KEY" := "lin_api_key" ]}).
  right. vm_compute. reflexivity.
Defined.

(** With both variables set, [main] constructs the client and connects the
    server. *)
Example main_starts :
  fst (run Tracker.answer
         (main id {[ "LINEAR_API_KEY" := "lin_api_key"; "LINEAR_TEAM_ID" := "team-1" ]})
         demo_tracker) = Returned tt.
Proof. vm_compute. reflexivity. Qed.

(** ** assign_issue *)

Lemma required_passes value fieldName (p : Prog LinearE MCPResponse) h :
  Validator.validateRequired value fieldName = None ->
  tryCatch
    (if hasErrors (Validator.collectErrors [Validator.validateRequired value fieldName])
     then Ret (ErrorHandler.handleValidationErrors
                 (Validator.collectErrors [Validator.validateRequired value fieldName]))
     else p) h
  = tryCatch p h.
Proof. intros ->. reflexivity. Qed.



(** The two cases on the reference tracker, run to the end. *)
Example assign_issue_unassign_runs :
  fst (run Tracker.answer
         (createAssignIssueHandler demo_client
            {[ "issueId" := JStr "ENG-1"; "assigneeId" := JStr "" ]}) demo_tracker)
  = Returned (ErrorHandler.success
                ("✅ Unassigned issue ENG-1" +:+ nl +:+ nl
                 +:+ "URL: https://linear.app/issue/ENG-1")).
Proof. vm_compute. reflexivity. Qed.

(** Outside the strings: a call that leaves assigneeId out sends [undefined]
    to the update, which changes no assignee, and the message still says
    "Unassigned". *)
Remark assign_issue_without_assignee :
  exists k,
    createAssignIssueHandler demo_client {[ "issueId" := JStr "ENG-1" ]}
    = Vis (SdkUpdateIssue (JStr "ENG-1") IssueUpdateInput.empty) k
    /\ fst (run Tracker.answer
              (createAssignIssueHandler demo_client {[ "issueId" := JStr "ENG-1" ]})
              demo_tracker)
       = Returned (ErrorHandler.success
                     ("✅ Unassigned issue ENG-1" +:+ nl +:+ nl
                      +:+ "URL: https://linear.app/issue/ENG-1")).
Proof. eexists. split; vm_compute; reflexivity. Qed.

(** ** update_status and the lifecycle *)

Lemma two_required_pass v1 f1 v2 f2 (p : Prog LinearE MCPResponse) h :
  Validator.validateRequired v1 f1 = None ->
  Validator.validateRequired v2 f2 = None ->
  tryCatch
    (if hasErrors (Validator.collectErrors
                     [Validator.validateRequired v1 f1; Validator.validateRequired v2 f2])
     then Ret (ErrorHandler.handleValidationErrors
                 (Validator.collectErrors
                    [Validator.validateRequired v1 f1; Validator.validateRequired v2 f2]))
     else p) h
  = tryCatch p h.
Proof. intros -> ->. reflexivity. Qed.

(** C1, as the code has it. update_status makes no lifecycle check: with
    issueId and stateId present, the first thing the handler does is ask for
    the update of the state to the given stateId, without reading the ticket;
    and on the reference tracker the ticket then is in that state, whatever
    state it was in before. *)
Theorem update_status_sets_any_state (client : LinearClient) (args : gmap string JsVal) :
  Validator.validateRequired (prop args "issueId") "issueId" = None ->
  Validator.validateRequired (prop args "stateId") "stateId" = None ->
  (exists k,
     createUpdateStatusHandler client args
     = Vis (SdkUpdateIssue (prop args "issueId")
              {| IssueUpdateInput.title := JUndefined;
                 IssueUpdateInput.description := JUndefined;
                 IssueUpdateInput.priority := JUndefined;
                 IssueUpdateInput.assigneeId := JUndefined;
                 IssueUpdateInput.projectId := JUndefined;
                 IssueUpdateInput.stateId := prop args "stateId";
                 IssueUpdateInput.labelIds := JUndefined |}) k)
  /\ (forall (w : Tracker) (ticket target : string) (issue : IssueNode) (st : StateInfo),
        prop args "issueId" = JStr ticket ->
        prop args "stateId" = JStr target ->
        tr_issues w !! ticket = Some issue ->
        tr_states w !! target = Some st ->
        node_state <$> tr_issues (snd (run Tracker.answer
                                         (createUpdateStatusHandler client args) w)) !! ticket
        = Some (Some st)).
Proof.
  intros Hid Hst. unfold createUpdateStatusHandler.
  rewrite (two_required_pass _ _ _ _ _ _ Hid Hst). unfold_programs. split.
  - eexists. reflexivity.
  - intros w ticket target issue st -> -> Hissue Hstate.
    cbn [run tryCatch bind Tracker.answer]. rewrite Hissue.
    unfold Tracker.applyUpdate, Tracker.setState.
    cbn [IssueUpdateInput.projectId IssueUpdateInput.labelIds IssueUpdateInput.title
         IssueUpdateInput.description IssueUpdateInput.priority IssueUpdateInput.assigneeId
         IssueUpdateInput.stateId Tracker.setTitle Tracker.setDescription Tracker.setPriority
         Tracker.setAssignee mbind option_bind].
    rewrite Hstate. cbn.
    rewrite lookup_insert_eq. reflexivity.
Qed.

(** C1 on the reference tracker: the discarded ticket ENG-1 is set to
    parked. *)
Lemma update_status_sets_any_state_witness :
  node_state <$> tr_issues
    (snd (run Tracker.answer
            (createUpdateStatusHandler demo_client
               {[ "issueId" := JStr "ENG-1"; "stateId" := JStr "parked" ]}) demo_tracker))
    !! "ENG-1"
  = Some (Some (demo_state "parked")).
Proof.
  refine (proj2 (update_status_sets_any_state demo_client
                   {[ "issueId" := JStr "ENG-1"; "stateId" := JStr "parked" ]} _ _)
            demo_tracker "ENG-1" "parked" (demo_issue "ENG-1" "discarded" 2)
            (demo_state "parked") _ _ _ _); vm_compute; reflexivity.
Defined.

(** C1, as the specification states it, fails: a ticket in the state "discarded" is
    moved back to "shaped" by one call of update_status, which reports
    success. *)
Lemma update_status_reverts_a_discarded_ticket :
  let args : gmap string JsVal := {[ "issueId" := JStr "ENG-1"; "stateId" := JStr "shaped" ]} in
  let result := run Tracker.answer (createUpdateStatusHandler demo_client args) demo_tracker in
  (state_id <$> (tr_issues demo_tracker !! "ENG-1" ≫= node_state)) = Some "discarded"
  /\ (state_id <$> (tr_issues (snd result) !! "ENG-1" ≫= node_state)) = Some "shaped"
  /\ fst result
     = Returned (ErrorHandler.success
                   ("✅ Updated ENG-1 status to: shaped" +:+ nl +:+ nl
                    +:+ "URL: https://linear.app/issue/ENG-1")).
Proof. vm_compute. repeat split; reflexivity. Qed.

(** ** Priorities *)

Lemma priority_map_domain (n : Z) : is_Some (LINEAR_PRIORITY_MAP !! n) <-> 0 <= n <= 4.
Proof.
  unfold LINEAR_PRIORITY_MAP. split.
  - intros Hsome. destruct (decide (0 <= n <= 4)) as [|Hout]; [done|].
    rewrite !lookup_insert_ne in Hsome by lia.
    rewrite lookup_singleton_ne in Hsome by lia. by destruct Hsome.
  - intros Hin.
    assert (n = 0 \/ n = 1 \/ n = 2 \/ n = 3 \/ n = 4) as [->|[->|[->|[->| ->]]]] by lia;
      vm_compute; eauto.
Qed.

Lemma title_checks_pass v (p : Prog LinearE MCPResponse) h :
  Validator.collectErrors
    [ Validator.validateRequired v "title";
      Validator.validateString v "title" (Some 1) (Some 255) ] = [] ->
  tryCatch
    (if hasErrors (Validator.collectErrors
                     [ Validator.validateRequired v "title";
                       Validator.validateString v "title" (Some 1) (Some 255) ])
     then Ret (ErrorHandler.handleValidationErrors
                 (Validator.collectErrors
                    [ Validator.validateRequired v "title";
                      Validator.validateString v "title" (Some 1) (Some 255) ]))
     else p) h
  = tryCatch p h.
Proof. intros ->. reflexivity. Qed.

(** C3, as the code has it. create_issue and update_issue forward the
    caller's priority to the tracker as they received it: the value in the
    call is [args.priority], neither clamped nor validated. The range 0
    through 4 is the set of keys of [LINEAR_PRIORITY_MAP]. *)
Theorem priority_is_forwarded_unchanged (client : LinearClient) (args : gmap string JsVal) :
  (Validator.collectErrors
     [ Validator.validateRequired (prop args "title") "title";
       Validator.validateString (prop args "title") "title" (Some 1) (Some 255) ] = [] ->
   exists k,
     createCreateIssueHandler client args
     = Vis (SdkCreateIssue
              {| sent_teamId := teamId client;
                 sent := {| IssueCreateInput.title := prop args "title";
                            IssueCreateInput.description := prop args "description";
                            IssueCreateInput.priority := prop args "priority";
                            IssueCreateInput.assigneeId := prop args "assigneeId";
                            IssueCreateInput.projectId := prop args "projectId";
                            IssueCreateInput.labelIds := JUndefined;
                            IssueCreateInput.stateId := JUndefined |} |}) k)
  /\ (Validator.validateRequired (prop args "issueId") "issueId" = None ->
      exists k,
        createUpdateIssueHandler client args
        = Vis (SdkUpdateIssue (prop args "issueId")
                 {| IssueUpdateInput.title := prop args "title";
                    IssueUpdateInput.description := prop args "description";
                    IssueUpdateInput.priority := prop args "priority";
                    IssueUpdateInput.assigneeId := prop args "assigneeId";
                    IssueUpdateInput.projectId := JUndefined;
                    IssueUpdateInput.stateId := prop args "stateId";
                    IssueUpdateInput.labelIds := JUndefined |}) k)
  /\ (forall n : Z, is_Some (LINEAR_PRIORITY_MAP !! n) <-> 0 <= n <= 4).
Proof.
  split; [|split].
  - intros Hok. unfold createCreateIssueHandler. rewrite (title_checks_pass _ _ _ Hok).
    unfold_programs. eexists. reflexivity.
  - intros Hid. unfold createUpdateIssueHandler. rewrite (required_passes _ _ _ _ Hid).
    unfold_programs. eexists. reflexivity.
  - apply priority_map_domain.
Qed.

(** C3 on a call of create_issue with priority 3. *)
Lemma priority_is_forwarded_unchanged_witness :
  exists k,
    createCreateIssueHandler demo_client {[ "title" := JStr "Ship it"; "priority" := JNum 3 ]}
    = Vis (SdkCreateIssue
             {| sent_teamId := teamId demo_client;
                sent := {| IssueCreateInput.title :=
                             prop {[ "title" := JStr "Ship it"; "priority" := JNum 3 ]} "title";
                           IssueCreateInput.description :=
                             prop {[ "title" := JStr "Ship it"; "priority" := JNum 3 ]} "description";
                           IssueCreateInput.priority :=
                             prop {[ "title" := JStr "Ship it"; "priority" := JNum 3 ]} "priority";
                           IssueCreateInput.assigneeId :=
                             prop {[ "title" := JStr "Ship it"; "priority" := JNum 3 ]} "assigneeId";
                           IssueCreateInput.projectId :=
                             prop {[ "title" := JStr "Ship it"; "priority" := JNum 3 ]} "projectId";
                           IssueCreateInput.labelIds := JUndefined;
                           IssueCreateInput.stateId := JUndefined |} |}) k.
Proof.
  apply (proj1 (priority_is_forwarded_unchanged demo_client
                  {[ "title" := JStr "Ship it"; "priority" := JNum 3 ]})).
  vm_compute. reflexivity.
Defined.

(** C3, as the specification states it, fails: create_issue called with priority 9
    sends 9 to the tracker, a value outside 0 through 4 that nothing has
    clamped. *)
Lemma create_issue_attaches_priority_out_of_range :
  let args : gmap string JsVal := {[ "title" := JStr "Ship it"; "priority" := JNum 9 ]} in
  (exists k,
     createCreateIssueHandler demo_client args
     = Vis (SdkCreateIssue
              {| sent_teamId := "team-1";
                 sent := {| IssueCreateInput.title := JStr "Ship it";
                            IssueCreateInput.description := JUndefined;
                            IssueCreateInput.priority := JNum 9;
                            IssueCreateInput.assigneeId := JUndefined;
                            IssueCreateInput.projectId := JUndefined;
                            IssueCreateInput.labelIds := JUndefined;
                            IssueCreateInput.stateId := JUndefined |} |}) k)
  /\ LINEAR_PRIORITY_MAP !! 9 = None
  /\ (4 < 9).
Proof.
  cbv zeta. split; [|split].
  - eexists. vm_compute. reflexivity.
  - vm_compute. reflexivity.
  - lia.
Qed.

(** ** The engine: idempotence *)

Section EngineFacts.

Variable confidence : nat -> Q.
Variable content_hash : string * string * list string * list string -> N.
Variable cfg : Engine.Config.

Local Abbreviation classify := (Engine.classify confidence cfg).
Local Abbreviation classify_once := (Engine.classify_once confidence content_hash cfg).
Local Abbreviation pipeline := (Engine.pipeline confidence content_hash cfg).

(** The classifier reads the content of a ticket and nothing else. *)
Lemma classify_content (t t' : Engine.Ticket) :
  Engine.content t = Engine.content t' -> classify t = classify t'.
Proof.
  unfold Engine.content. intros [= Htitle Hdesc Htags Hrepos].
  unfold Engine.classify. by rewrite Htitle, Hdesc, Htags, Hrepos.
Qed.

(** After a classification, the snapshot of the ticket answers for its
    content. *)
Lemma classify_once_remembers (t : Engine.Ticket) (st : Engine.State) :
  exists s,
    Engine.snapshots (snd (classify_once t st)) !! Engine.ticket_id t = Some s
    /\ Engine.seen_hash s = content_hash (Engine.content t)
    /\ Engine.seen_classification s = fst (classify_once t st).
Proof.
  unfold Engine.classify_once.
  destruct (Engine.snapshots st !! Engine.ticket_id t) as [s|] eqn:Hs.
  - destruct (N.eqb (Engine.seen_hash s) (content_hash (Engine.content t))) eqn:Hh.
    + exists s. cbn. apply N.eqb_eq in Hh. auto.
    + eexists. cbn. rewrite lookup_insert_eq. auto.
  - eexists. cbn. rewrite lookup_insert_eq. auto.
Qed.

Lemma classify_once_twice (t t' : Engine.Ticket) (st st' : Engine.State) :
  Engine.ticket_id t = Engine.ticket_id t' ->
  Engine.content t = Engine.content t' ->
  Engine.snapshots st' = Engine.snapshots (snd (classify_once t st)) ->
  classify_once t' st' = (fst (classify_once t st), st').
Proof.
  intros Hid Hcontent Hsnap.
  destruct (classify_once_remembers t st) as (s & Hs & Hhash & Hclass).
  unfold Engine.classify_once at 1.
  rewrite Hsnap, <- Hid, Hs, <- Hcontent, Hhash, N.eqb_refl. by rewrite Hclass.
Qed.

Lemma pipeline_snapshots now (t : Engine.Ticket) (st : Engine.State) :
  Engine.snapshots (snd (pipeline now t st)) = Engine.snapshots (snd (classify_once t st)).
Proof.
  unfold Engine.pipeline. by destruct (classify_once t st).
Qed.

Lemma pipeline_output now (t : Engine.Ticket) (st : Engine.State) :
  fst (pipeline now t st)
  = (fst (classify_once t st),
     Engine.prioritize cfg (fst (classify_once t st)),
     Engine.route cfg (fst (classify_once t st))
       (Engine.prioritize cfg (fst (classify_once t st)))).
Proof.
  unfold Engine.pipeline. by destruct (classify_once t st).
Qed.

(** C2. Running classify, prioritize and route on a ticket and then again
    on a ticket with the same id and the same content, in the state the first
    run left, gives the same classification, the same priority score with the
    same rationale, and the same routing decision, whatever the state was
    before the first run and whenever the runs take place. *)
Theorem pipeline_is_idempotent (now1 now2 : Z) (t t' : Engine.Ticket) (st : Engine.State) :
  Engine.ticket_id t = Engine.ticket_id t' ->
  Engine.content t = Engine.content t' ->
  fst (pipeline now2 t' (snd (pipeline now1 t st))) = fst (pipeline now1 t st).
Proof.
  intros Hid Hcontent. rewrite !pipeline_output.
  rewrite (classify_once_twice t t' st _ Hid Hcontent (pipeline_snapshots now1 t st)).
  reflexivity.
Qed.


(** ** The engine: next *)

Lemma outranks_total : Total (Engine.outranks cfg).
Proof. intros a b. unfold Engine.outranks. lia. Qed.

Lemma outranks_transitive : Transitive (Engine.outranks cfg).
Proof. intros a b c. unfold Engine.outranks. lia. Qed.

(** A prefix of a sorted list outranks what it leaves behind. *)
Lemma take_outranks_drop (n : nat) (l : list Engine.Ticket) :
  StronglySorted (Engine.outranks cfg) l ->
  Forall (fun u => Forall (fun t => Engine.outranks cfg t u) (take n l)) (drop n l).
Proof.
  intros Hsorted. rewrite <- (take_drop n l) in Hsorted.
  apply Forall_forall. intros u Hu. apply Forall_forall. intros t Ht.
  eapply StronglySorted_app_1_elem_of; eauto.
Qed.

(** C4. [next count] returns tickets of the backlog that are all ready, in
    the order of score descending and then creation time ascending, as many as
    asked for (or all the ready ones, when there are fewer); and they are the
    top ones: together with the ready tickets left out they make up the ready
    tickets of the backlog, and each returned ticket outranks each one left
    out. *)
Theorem next_returns_top_ready_tickets (count : nat) (st : Engine.State) :
  let ready := filter (fun t => Engine.ticket_status t = Engine.Ready) (Engine.backlog st) in
  let result := Engine.next cfg count st in
  Forall (fun t => Engine.ticket_status t = Engine.Ready /\ t ∈ Engine.backlog st) result
  /\ StronglySorted (Engine.outranks cfg) result
  /\ length result = Nat.min count (length ready)
  /\ exists rest,
       result ++ rest ≡ₚ ready
       /\ Forall (fun u => Forall (fun t => Engine.outranks cfg t u) result) rest.
Proof.
  cbv zeta. unfold Engine.next.
  set (ready := filter _ (Engine.backlog st)).
  set (sorted := merge_sort (Engine.outranks cfg) ready).
  assert (sorted ≡ₚ ready) as Hperm by apply merge_sort_Permutation.
  assert (StronglySorted (Engine.outranks cfg) sorted) as Hsorted
    by apply (@StronglySorted_merge_sort _ _ _ outranks_transitive outranks_total).
  repeat split.
  - apply Forall_forall. intros t Ht.
    assert (t ∈ ready) as Hready.
    { rewrite <- Hperm. by apply (subseteq_take count sorted). }
    apply list_elem_of_filter in Hready. done.
  - rewrite <- (take_drop count sorted) in Hsorted.
    by apply StronglySorted_app_1_l in Hsorted.
  - rewrite length_take, (Permutation_length Hperm). lia.
  - exists (drop count sorted). split.
    + by rewrite take_drop.
    + by apply take_outranks_drop.
Qed.

(** ** The engine: the audit log *)

Local Abbreviation perform_operation := (Engine.perform_operation confidence content_hash cfg).

Lemma record_extends now ticket stage input output (st : Engine.State) :
  Engine.audit st `prefix_of` Engine.audit (Engine.record now ticket stage input output st).
Proof. cbn. by apply prefix_app_r. Qed.

Lemma classify_once_audit (t : Engine.Ticket) (st : Engine.State) :
  Engine.audit (snd (classify_once t st)) = Engine.audit st.
Proof. unfold Engine.classify_once. by repeat case_match. Qed.

Lemma triage_ticket_extends now (t : Engine.Ticket) (st : Engine.State) :
  Engine.audit st
  `prefix_of` Engine.audit (Engine.triage_ticket confidence content_hash cfg now t st).
Proof.
  unfold Engine.triage_ticket.
  pose proof (classify_once_audit t st) as Hc.
  destruct (classify_once t st) as [c st1]. cbn [snd] in Hc.
  repeat case_match; try done; cbn; rewrite ?Hc, <- ?app_assoc; by apply prefix_app_r.
Qed.

Lemma clean_ticket_extends now (t : Engine.Ticket) (st : Engine.State) :
  Engine.audit st
  `prefix_of` Engine.audit (Engine.clean_ticket confidence content_hash cfg now t st).
Proof.
  unfold Engine.clean_ticket.
  pose proof (classify_once_audit t st) as Hc.
  destruct (classify_once t st) as [c st1]. cbn [snd] in Hc.
  cbn. rewrite Hc, <- app_assoc. by apply prefix_app_r.
Qed.

Lemma foldl_extends {A} (f : Engine.State -> A -> Engine.State) (l : list A)
    (st : Engine.State) :
  (forall s a, Engine.audit s `prefix_of` Engine.audit (f s a)) ->
  Engine.audit st `prefix_of` Engine.audit (foldl f st l).
Proof.
  intros Hf. revert st. induction l as [|a l IH]; intros st; cbn [foldl]; [done|].
  etrans; [apply Hf | apply IH].
Qed.

Lemma operation_extends (st : Engine.State) (op : Engine.Operation) :
  Engine.audit st `prefix_of` Engine.audit (perform_operation st op).
Proof.
  destruct op; cbn [Engine.perform_operation]; try done.
  - apply foldl_extends. intros. apply triage_ticket_extends.
  - apply foldl_extends. intros. apply clean_ticket_extends.
  - apply record_extends.
  - cbn. by apply prefix_app_r.
Qed.

(** C8. The audit log only grows at its end: after any sequence of
    operations of the engine the log it started from is a prefix of the log it
    has, so every entry written earlier is still there, at its place and
    unchanged. *)
Theorem audit_log_is_append_only (ops : list (Engine.Operation))
    (st : Engine.State) :
  Engine.audit st `prefix_of` Engine.audit (foldl perform_operation st ops)
  /\ forall (i : nat) (entry : Engine.AuditEntry),
       Engine.audit st !! i = Some entry ->
       Engine.audit (foldl perform_operation st ops) !! i = Some entry.
Proof.
  assert (Engine.audit st `prefix_of` Engine.audit (foldl perform_operation st ops)) as Hprefix.
  { apply foldl_extends. intros. apply operation_extends. }
  split; [done|]. intros i entry Hi. by eapply prefix_lookup_Some.
Qed.

End EngineFacts.

(** C2 on the sample ticket: a second run an hour later, on the ticket now
    ready, repeats the outputs of the first. *)
Lemma pipeline_is_idempotent_witness :
  fst (Engine.pipeline demo_confidence demo_hash demo_config 1769734800
         (demo_ticket Engine.Ready)
         (snd (Engine.pipeline demo_confidence demo_hash demo_config 1769731200
                 (demo_ticket Engine.Candidate) demo_engine)))
  = fst (Engine.pipeline demo_confidence demo_hash demo_config 1769731200
           (demo_ticket Engine.Candidate) demo_engine).
Proof.
  apply (pipeline_is_idempotent demo_confidence demo_hash demo_config
           1769731200 1769734800 (demo_ticket Engine.Candidate) (demo_ticket Engine.Ready)
           demo_engine); reflexivity.
Defined.

(** The sample ticket through the stages: bridge work from the opportunity
    agent over two repositories is scored at the top of the range and routed
    to the agent. *)
Example pipeline_on_sample_ticket :
  let '(c, p, r) := fst (Engine.pipeline demo_confidence demo_hash demo_config 1769731200
                           (demo_ticket Engine.Candidate) demo_engine) in
  Engine.surfaces c = [Engine.Bridge; Engine.Solutions; Engine.App]
  /\ Engine.size c = Engine.Large
  /\ p = {| Engine.score := 4; Engine.rationale := "bridge:2; opportunity:1" |}
  /\ Engine.route_of r = Engine.Agent.
Proof. vm_compute. repeat split; reflexivity. Qed.

(** After a triage the sample ticket is ready and [next] returns it. *)
Example next_on_sample_backlog :
  Engine.ticket_id <$>
    Engine.next demo_config 3 (Engine.triage demo_confidence demo_hash demo_config 1769731200
                                 demo_engine)
  = ["MAP-7"].
Proof. vm_compute. reflexivity. Qed.

(** ** Remarks on the sources *)

(** The logger prints an error at every configured level. *)
Remark errors_are_always_logged (level : string) : Logger.shouldLog level "error" = true.
Proof.
  unfold Logger.shouldLog, Logger.levels. cbn [Logger.indexOf].
  repeat (destruct (String.eqb _ level); [reflexivity|]). reflexivity.
Qed.

(** [listIssues] with no filter asks the SDK for the issues of the team, the
    first 50, ordered by [updatedAt]; it sends no state filter and sorts
    nothing itself. *)
Remark listIssues_request :
  exists k,
    Client.listIssues demo_client None JUndefined
    = Vis (SdkIssues {| f_team := "team-1"; f_assignee := None; f_priority := None;
                        f_stateType := None; f_project := None |}
                     (JNum 50) "updatedAt") k.
Proof. eexists. reflexivity. Qed.

(** A call of a tool that is not registered is the one request the server
    answers with an exception. *)
Remark unknown_tool_throws (fmt : string -> string) (client : LinearClient) :
  Server.callTool (Server.setup fmt client) "delete_issue" None
  = Throw (ErrorObj "Unknown tool: delete_issue").
Proof. vm_compute. reflexivity. Qed.

(** * Further properties of the sources *)

(** ** The validator *)

(** X1. [validateString] accepts exactly the strings whose length is within
    the bounds given, where a bound left out and a bound of 0 both mean no
    bound (the test is [minLength && ...]): with [maxLength] 0 a string of any
    length passes. *)
Theorem validateString_accepts (value : JsVal) (fieldName : string)
    (minLength maxLength : option Z) :
  Validator.validateString value fieldName minLength maxLength = None <->
  exists s, value = JStr s
    /\ (forall m, minLength = Some m -> m <> 0 -> m <= Z.of_nat (String.length s))
    /\ (forall m, maxLength = Some m -> m <> 0 -> Z.of_nat (String.length s) <= m).
Proof.
  unfold Validator.validateString. split.
  - destruct value as [| |b|n|s|l|f]; try discriminate.
    intros Hnone. exists s. split; [reflexivity|].
    destruct minLength as [lo|], maxLength as [hi|];
      repeat match type of Hnone with
             | (if ?c then _ else _) = None => destruct c eqn:?; [discriminate|]
             end;
      (split; intros m [= <-] Hm); try discriminate;
      repeat match goal with
             | H : _ && _ = false |- _ => apply andb_false_iff in H as [H|H]
             | H : negb _ = false |- _ => apply negb_false_iff, Z.eqb_eq in H
             | H : (_ <? _) = false |- _ => apply Z.ltb_ge in H
             end; lia.
  - intros (s & -> & Hlo & Hhi).
    assert (match minLength with
            | Some m => negb (m =? 0) && (Z.of_nat (String.length s) <? m)
            | None => false
            end = false) as ->.
    { destruct minLength as [lo|]; [|reflexivity].
      destruct (Z.eqb_spec lo 0); [reflexivity|]. cbn [negb andb].
      apply Z.ltb_ge. by apply Hlo. }
    assert (match maxLength with
            | Some m => negb (m =? 0) && (m <? Z.of_nat (String.length s))
            | None => false
            end = false) as ->.
    { destruct maxLength as [hi|]; [|reflexivity].
      destruct (Z.eqb_spec hi 0); [reflexivity|]. cbn [negb andb].
      apply Z.ltb_ge. by apply Hhi. }
    reflexivity.
Qed.


(** X3. [collectErrors] keeps the errors of the checks that failed, in the
    order of the checks, and nothing else: it is empty exactly when every
    check passed, it is never longer than the list of checks, and collecting
    over two lists of checks is collecting over each. *)
Theorem collectErrors_keeps_failures (checks checks' : list (option ValidationError)) :
  (Validator.collectErrors checks = [] <-> Forall (fun c => c = None) checks)
  /\ (forall e, e ∈ Validator.collectErrors checks <-> Some e ∈ checks)
  /\ (length (Validator.collectErrors checks) <= length checks)%nat
  /\ Validator.collectErrors (checks ++ checks')%list
     = (Validator.collectErrors checks ++ Validator.collectErrors checks')%list.
Proof.
  repeat split.
  - induction checks as [|[e|] rest IH]; cbn; intros H; try done; constructor; auto.
  - induction checks as [|[e|] rest IH]; cbn; intros H; try done.
    + by apply Forall_cons in H as [? _].
    + apply Forall_cons in H as [_ H]. auto.
  - induction checks as [|[e'|] rest IH]; cbn; intros H.
    + by apply elem_of_nil in H.
    + apply elem_of_cons in H as [-> | H]; [left | right; auto].
    + right. auto.
  - induction checks as [|[e'|] rest IH]; cbn; intros H.
    + by apply elem_of_nil in H.
    + apply elem_of_cons in H as [[= ->] | H]; [left | right; auto].
    + apply elem_of_cons in H as [? | H]; [done | auto].
  - induction checks as [|[e|] rest IH]; cbn; lia.
  - induction checks as [|[e|] rest IH]; cbn; by rewrite ?IH.
Qed.

(** ** What the handlers accept *)

Lemma name_checks_pass_iff (v : JsVal) (fieldName : string) :
  Validator.collectErrors
    [ Validator.validateRequired v fieldName;
      Validator.validateString v fieldName (Some 1) (Some 255) ] = []
  <-> exists s, v = JStr s /\ (1 <= String.length s <= 255)%nat.
Proof.
  split.
  - destruct v as [| |b|n|s|l|f]; try discriminate.
    unfold Validator.validateRequired, Validator.validateString.
    cbn [strictEq orb negb andb Z.eqb].
    destruct (String.eqb s ""); [discriminate|].
    destruct (Z.of_nat (String.length s) <? 1) eqn:Hlo; [discriminate|].
    destruct (255 <? Z.of_nat (String.length s)) eqn:Hhi; [discriminate|].
    intros _. exists s. apply Z.ltb_ge in Hlo, Hhi. split; [reflexivity | lia].
  - intros (s & -> & Hlen).
    unfold Validator.validateRequired, Validator.validateString.
    cbn [strictEq orb negb andb Z.eqb].
    destruct s as [|c s]; [cbn in Hlen; lia|]. cbn [String.eqb].
    destruct (Z.of_nat (String.length (String c s)) <? 1) eqn:Hlo;
      [apply Z.ltb_lt in Hlo; lia|].
    destruct (255 <? Z.of_nat (String.length (String c s))) eqn:Hhi;
      [apply Z.ltb_lt in Hhi; lia|].
    reflexivity.
Qed.

Lemma guarded_handler_cases (errors : list ValidationError)
    (p : Prog LinearE MCPResponse) h :
  (errors = [] /\
   tryCatch (if hasErrors errors then Ret (ErrorHandler.handleValidationErrors errors) else p) h
   = tryCatch p h)
  \/ (errors <> [] /\
      tryCatch (if hasErrors errors then Ret (ErrorHandler.handleValidationErrors errors) else p) h
      = Ret (ErrorHandler.handleValidationErrors errors)).
Proof. destruct errors; [left | right]; done. Qed.

(** X4. create_issue goes on to the tracker exactly when the title is a
    string of 1 to 255 code units, and create_project exactly when the name is:
    the first event then is the creation, in the team of the client; in every
    other case the handler returns a validation response. A title of the wrong
    type (a number, say) is refused before any call as well. *)
Theorem creation_accepts_names_of_1_to_255 (client : LinearClient) (args : gmap string JsVal) :
  ((exists s, prop args "title" = JStr s /\ (1 <= String.length s <= 255)%nat)
   <-> exists input k,
         sent_teamId input = teamId client
         /\ createCreateIssueHandler client args = Vis (SdkCreateIssue input) k)
  /\ ((~ exists s, prop args "title" = JStr s /\ (1 <= String.length s <= 255)%nat)
      <-> exists errors, errors <> [] /\
            createCreateIssueHandler client args
            = Ret (ErrorHandler.handleValidationErrors errors))
  /\ ((exists s, prop args "name" = JStr s /\ (1 <= String.length s <= 255)%nat)
      <-> exists k, createCreateProjectHandler client args
                    = Vis (SdkCreateProject [teamId client] (prop args "name")
                             (prop args "description")) k)
  /\ ((~ exists s, prop args "name" = JStr s /\ (1 <= String.length s <= 255)%nat)
      <-> exists errors, errors <> [] /\
            createCreateProjectHandler client args
            = Ret (ErrorHandler.handleValidationErrors errors)).
Proof.
  pose proof (name_checks_pass_iff (prop args "title") "title") as Htitle.
  pose proof (name_checks_pass_iff (prop args "name") "name") as Hname.
  unfold createCreateIssueHandler, createCreateProjectHandler.
  split; [|split; [|split]].
  - match goal with
    | |- context [tryCatch (if hasErrors ?e then _ else ?p) ?h] =>
        destruct (guarded_handler_cases e p h) as [[He ->] | [He ->]]
    end.
    + split; [intros _ | intros _; by apply Htitle].
      unfold_programs. eexists _, _. split; [|reflexivity]. reflexivity.
    + split; [intros Hs; by apply Htitle in Hs | intros (? & ? & ? & [=])].
  - match goal with
    | |- context [tryCatch (if hasErrors ?e then _ else ?p) ?h] =>
        destruct (guarded_handler_cases e p h) as [[He ->] | [He ->]]
    end.
    + split; [intros Hs; destruct Hs; by apply Htitle |].
      unfold_programs. intros (? & ? & [=]).
    + split; [eauto | intros _ Hs; by apply Htitle in Hs].
  - match goal with
    | |- context [tryCatch (if hasErrors ?e then _ else ?p) ?h] =>
        destruct (guarded_handler_cases e p h) as [[He ->] | [He ->]]
    end.
    + split; [intros _ | intros _; by apply Hname].
      unfold_programs. eexists. reflexivity.
    + split; [intros Hs; by apply Hname in Hs | intros (? & [=])].
  - match goal with
    | |- context [tryCatch (if hasErrors ?e then _ else ?p) ?h] =>
        destruct (guarded_handler_cases e p h) as [[He ->] | [He ->]]
    end.
    + split; [intros Hs; destruct Hs; by apply Hname |].
      unfold_programs. intros (? & ? & [=]).
    + split; [eauto | intros _ Hs; by apply Hname in Hs].
Qed.

Lemma prop_missing (args : gmap string JsVal) (key : string) :
  args !! key = None -> prop args key = JUndefined.
Proof. unfold prop. by intros ->. Qed.

(** X5. The keys a tool declares as required are enforced by its handler:
    a call that leaves one out is answered by a validation response and makes
    no call to the tracker. The one exception is [assigneeId] of assign_issue,
    declared required and never checked: a call without it goes on to an
    update that carries no field at all. *)
Theorem required_keys_are_enforced (fmt : string -> string) (client : LinearClient) :
  Forall (fun th : MCPTool * ToolHandler =>
            forall key, key ∈ required (fst th) ->
              (name (fst th), key) <> ("assign_issue", "assigneeId") ->
              forall args : gmap string JsVal, args !! key = None ->
                exists errors, errors <> [] /\
                  snd th args = Ret (ErrorHandler.handleValidationErrors errors))
         (Server.registrations fmt client)
  /\ (forall args : gmap string JsVal,
        Validator.validateRequired (prop args "issueId") "issueId" = None ->
        args !! "assigneeId" = None ->
        exists k, createAssignIssueHandler client args
                  = Vis (SdkUpdateIssue (prop args "issueId") IssueUpdateInput.empty) k).
Proof.
  split.
  - unfold Server.registrations.
    repeat first [ apply List.Forall_nil | apply List.Forall_cons ];
      cbn [fst snd name required]; intros key Hkey Hnot args Hmissing;
      repeat (apply elem_of_cons in Hkey as [-> | Hkey]);
      try (by apply elem_of_nil in Hkey); try done;
      apply prop_missing in Hmissing; unfold_programs; rewrite Hmissing;
      (eexists; split; [|apply validation_guard];
       unfold Validator.validateRequired; cbn [Validator.collectErrors strictEq orb];
       repeat case_match; done).
  - intros args Hid Hmissing. apply prop_missing in Hmissing.
    unfold createAssignIssueHandler. rewrite (required_passes _ _ _ _ Hid), Hmissing.
    unfold_programs. eexists. reflexivity.
Qed.

(** ** The server *)

Lemma registry_domain (fmt : string -> string) (client : LinearClient) :
  dom (handlers (Server.setup fmt client)) = list_to_set toolNames
  /\ dom (tools (Server.setup fmt client)) = list_to_set toolNames.
Proof. split; reflexivity. Qed.

Lemma registered_name (fmt : string -> string) (client : LinearClient) (toolName : string) :
  is_Some (handlers (Server.setup fmt client) !! toolName) <-> toolName ∈ toolNames.
Proof.
  rewrite <- elem_of_dom, (proj1 (registry_domain fmt client)).
  apply elem_of_list_to_set.
Qed.

(** X6. After [setupHandlers] the two maps of the server agree: the twelve
    tools are there under twelve different names, each name leads to the
    descriptor and to the handler it was registered with (no registration
    overwrites another), and no other name leads anywhere. *)
Theorem registry_is_consistent (fmt : string -> string) (client : LinearClient) :
  let srv := Server.setup fmt client in
  Forall (fun th : MCPTool * ToolHandler =>
            tools srv !! name (fst th) = Some (fst th)
            /\ handlers srv !! name (fst th) = Some (snd th))
         (Server.registrations fmt client)
  /\ (forall toolName, is_Some (handlers srv !! toolName) <-> toolName ∈ toolNames)
  /\ (forall toolName, is_Some (tools srv !! toolName) <-> toolName ∈ toolNames)
  /\ size (tools srv) = 12%nat
  /\ length (Server.listTools srv) = 12%nat.
Proof.
  cbv zeta. split; [|split; [|split; [|split]]].
  - unfold Server.registrations.
    repeat first [ apply List.Forall_nil | apply List.Forall_cons ];
      split; reflexivity.
  - apply registered_name.
  - intros toolName. rewrite <- elem_of_dom, (proj2 (registry_domain fmt client)).
    apply elem_of_list_to_set.
  - vm_compute. reflexivity.
  - vm_compute. reflexivity.
Qed.

(** X7. A [tools/call] request ends in an exception exactly when the name is
    not one of the twelve registered names, and the exception then is
    "Unknown tool: <name>", raised before anything is logged or asked of the
    tracker. For a registered name the request ends in a response, in every
    world and for every arguments, also when the arguments are left out. *)
Theorem call_raises_only_for_unknown_tools (W : Type)
    (answer : forall X, LinearE X -> W -> X * W) (w : W)
    (fmt : string -> string) (client : LinearClient)
    (toolName : string) (arguments : option (gmap string JsVal)) :
  let request := Server.callTool (Server.setup fmt client) toolName arguments in
  (toolName ∈ toolNames -> exists r, fst (run answer request w) = Returned r)
  /\ (toolName ∉ toolNames -> request = Throw (ErrorObj ("Unknown tool: " +:+ toolName)))
  /\ (toolName ∈ toolNames <-> forall e, fst (run answer request w) <> Raised e).
Proof.
  cbv zeta.
  assert (toolName ∈ toolNames ->
          exists r, fst (run answer (Server.callTool (Server.setup fmt client)
                                       toolName arguments) w) = Returned r) as Hknown.
  { intros Hin. apply (registered_name fmt client) in Hin as [h Hh].
    unfold Server.callTool, ToolHandler in *. rewrite Hh.
    apply registered_handler in Hh as [Hreg | Hempty];
      [|cbn [handlers] in Hempty; by rewrite lookup_empty in Hempty].
    apply list_elem_of_fmap in Hreg as (th & -> & Hth).
    pose proof (handlers_return fmt client) as Hall. rewrite Forall_forall in Hall.
    unfold Logger.info, perform. cbn [bind run].
    destruct (answer _ _ w) as [[] w'].
    destruct (run_returns answer _ _ w' (Hall th Hth (default ∅ arguments))) as (r & Hr & _).
    eauto. }
  assert (toolName ∉ toolNames ->
          Server.callTool (Server.setup fmt client) toolName arguments
          = Throw (ErrorObj ("Unknown tool: " +:+ toolName))) as Hunknown.
  { intros Hout. unfold Server.callTool.
    destruct (handlers (Server.setup fmt client) !! toolName) as [h|] eqn:Hh; [|reflexivity].
    destruct Hout. apply (registered_name fmt client). eauto. }
  split; [exact Hknown|]. split; [exact Hunknown|]. split.
  - intros Hin e He. destruct (Hknown Hin) as (r & Hr). congruence.
  - intros Hnever. destruct (decide (toolName ∈ toolNames)) as [|Hout]; [done|].
    destruct (Hnever (ErrorObj ("Unknown tool: " +:+ toolName))).
    by rewrite (Hunknown Hout).
Qed.

(** ** What the handlers ask of the tracker *)

(** Walks a program as [walk_events] does, for a predicate on events that
    [unfold_event] reduces. *)
Ltac walk_events_with unfold_event :=
  repeat first
    [ apply allEvents_tryCatch
    | apply allEvents_bind
    | progress cbn [allEvents bind tryCatch]
    | progress unfold_event
    | match goal with
      | |- forall _, _ => intro
      | |- True => exact I
      | |- _ /\ _ => split
      | |- _ = _ => reflexivity
      | |- allEvents _ (if ?b then _ else _) => destruct b
      | |- allEvents _ (match ?x with _ => _ end) => destruct x
      end ].

Lemma tracker_reads_change_nothing X (ev : LinearE X) (w : Tracker) :
  isMutation ev = false ->
  let w' := snd (Tracker.answer X ev w) in
  tr_issues w' = tr_issues w /\ tr_projects w' = tr_projects w
  /\ tr_comments w' = tr_comments w.
Proof.
  intros Hev. destruct ev; try discriminate Hev; cbn [Tracker.answer];
    repeat case_match; cbn; auto.
Qed.

(** X8. The six reading tools (list_issues, get_issue, search_issues,
    list_projects, get_project, list_teams) raise no event that changes the
    tracker, whatever their arguments and whatever the tracker answers; run on
    the reference tracker they leave its issues, projects and comments as they
    were. *)
Theorem reading_tools_change_nothing (fmt : string -> string) (client : LinearClient) :
  Forall (fun h : ToolHandler =>
            forall args : gmap string JsVal,
              allEvents (fun X ev => isMutation ev = false) (h args)
              /\ forall w : Tracker,
                   let w' := snd (run Tracker.answer (h args) w) in
                   tr_issues w' = tr_issues w /\ tr_projects w' = tr_projects w
                   /\ tr_comments w' = tr_comments w)
         [ createListIssuesHandler client; createGetIssueHandler fmt client;
           createSearchIssuesHandler client; createListProjectsHandler fmt client;
           createGetProjectHandler fmt client; createListTeamsHandler client ].
Proof.
  assert (Forall (fun h : ToolHandler =>
                    forall args, allEvents (fun X ev => isMutation ev = false) (h args))
            [ createListIssuesHandler client; createGetIssueHandler fmt client;
              createSearchIssuesHandler client; createListProjectsHandler fmt client;
              createGetProjectHandler fmt client; createListTeamsHandler client ]) as Hreads.
  { repeat first [ apply List.Forall_nil | apply List.Forall_cons ];
      intros args; unfold_programs; walk_events_with ltac:(cbn [isMutation]). }
  rewrite Forall_forall in Hreads |- *. intros h Hh args. split; [by apply Hreads|].
  intros w. cbv zeta.
  apply (run_invariant Tracker.answer (fun X ev => isMutation ev = false)
           (fun w' => tr_issues w' = tr_issues w /\ tr_projects w' = tr_projects w
                      /\ tr_comments w' = tr_comments w)); [|by apply Hreads|done].
  intros X ev w0 Hev (Hi & Hp & Hc).
  destruct (tracker_reads_change_nothing X ev w0 Hev) as (Hi' & Hp' & Hc').
  cbv zeta in Hi', Hp', Hc'. by rewrite Hi', Hp', Hc'.
Qed.

(** Walks a program counting the events that change the tracker. *)
Ltac walk_mutations :=
  repeat first
    [ progress cbn [mutatesAtMost isMutation bind tryCatch]
    | match goal with
      | |- forall _ : Exc (option _), _ => intros [[?|]|?]
      | |- forall _ : Exc _, _ => intros [?|?]
      | |- forall _, _ => intro
      | |- True => exact I
      | |- context [hasErrors ?errors] => destruct (hasErrors errors)
      | |- mutatesAtMost _ (tryCatch (if ?b then _ else _) _) => destruct b
      | |- mutatesAtMost _ (if ?b then _ else _) => destruct b
      end ].

(** X9. One invocation of a handler changes the tracker at most once: on
    no path does a handler raise two events that create, update or comment,
    so a failed call is never repeated and no handler does two writes. *)
Theorem handlers_write_at_most_once (fmt : string -> string) (client : LinearClient) :
  Forall (fun th : MCPTool * ToolHandler =>
            forall args : gmap string JsVal, mutatesAtMost 1 (snd th args))
         (Server.registrations fmt client).
Proof.
  each_handler; walk_mutations.
Qed.


(** X11. update_issue, assign_issue, update_status and add_comment touch the
    ticket named by [issueId] and no other: every update and every comment
    they raise carries [args.issueId] as given. *)
Theorem updates_touch_the_named_ticket (client : LinearClient) (args : gmap string JsVal) :
  Forall (fun h : ToolHandler =>
            allEvents (fun X ev => touchesOnly (prop args "issueId") ev) (h args))
         [ createUpdateIssueHandler client; createAssignIssueHandler client;
           createUpdateStatusHandler client; createAddCommentHandler client ].
Proof.
  repeat first [ apply List.Forall_nil | apply List.Forall_cons ];
    unfold_programs; walk_events_with ltac:(cbn [touchesOnly]).
Qed.

(** ** What the handlers answer *)

(** X12. When the SDK rejects a call with [e], the handler answers with the
    message of [e] behind "Error: " (the text of an [Error], a thrown string
    itself, or "An unexpected error occurred"), flagged as an error, and the
    failure has been logged twice at the error level: first by the method of
    the client, then by the handler under "Error in <tool name>:". A call that
    fails validation logs nothing. *)
Theorem rejections_are_reported_and_logged (fmt : string -> string) (client : LinearClient)
    (e : JsThrown) :
  Forall (fun th : MCPTool * ToolHandler =>
            forall args : gmap string JsVal,
              let result := run (recording e) (snd th args) [] in
              (exists errors, errors <> []
                 /\ fst result = Returned (ErrorHandler.handleValidationErrors errors)
                 /\ snd result = [])
              \/ (fst result = Returned (errorResponse e)
                  /\ exists msg,
                       snd result = [ ("error", "Error in " +:+ name (fst th) +:+ ":");
                                      ("error", msg) ]))
         (Server.registrations fmt client).
Proof.
  unfold Server.registrations.
  repeat first [ apply List.Forall_nil | apply List.Forall_cons ];
    cbn [fst snd name]; intros args; unfold_programs;
    try match goal with
        | |- context [tryCatch (if hasErrors ?errors then _ else ?p) ?h] =>
            destruct (guarded_handler_cases errors p h) as [[Herrors ->] | [Herrors ->]]
        end;
    cbn [run tryCatch bind recording fst snd];
    solve [ right; split; [reflexivity | eexists; reflexivity]
          | left; eexists; split; [|split; reflexivity]; done ].
Qed.

(** X13. When a creation or an update comes back with a payload that holds
    no entity, the handler reports a failure and no success: create_issue
    answers "Error: Failed to create issue", update_issue, assign_issue and
    update_status answer "Error: Failed to update issue", add_comment answers
    "Error: Failed to create comment", create_project answers "Error: Failed to
    create project". *)
Theorem hollow_payloads_are_failures (client : LinearClient) (args : gmap string JsVal) :
  let answers (h : ToolHandler) (msg : string) :=
    (exists errors, errors <> [] /\
       fst (run hollow (h args) tt) = Returned (ErrorHandler.handleValidationErrors errors))
    \/ fst (run hollow (h args) tt) = Returned (errorResponse (ErrorObj msg)) in
  answers (createCreateIssueHandler client) "Failed to create issue"
  /\ answers (createUpdateIssueHandler client) "Failed to update issue"
  /\ answers (createAssignIssueHandler client) "Failed to update issue"
  /\ answers (createUpdateStatusHandler client) "Failed to update issue"
  /\ answers (createAddCommentHandler client) "Failed to create comment"
  /\ answers (createCreateProjectHandler client) "Failed to create project".
Proof.
  cbv zeta. repeat split; unfold_programs;
    match goal with
    | |- context [tryCatch (if hasErrors ?errors then _ else ?p) ?h] =>
        destruct (guarded_handler_cases errors p h) as [[Herrors ->] | [Herrors ->]]
    end;
    cbn [run tryCatch bind hollow fst snd];
    solve [ right; reflexivity | left; eexists; split; [|reflexivity]; done ].
Qed.

(** X14. A listing that comes back empty is a success with a message of its
    own, not an error and not an empty list: list_issues, list_projects and
    list_teams say that nothing was found, and search_issues, for a query that
    passed validation, repeats the query between quotes. *)
Theorem empty_listings_are_successes (fmt : string -> string) (client : LinearClient)
    (args : gmap string JsVal) :
  fst (run hollow (createListIssuesHandler client args) tt)
  = Returned (ErrorHandler.success "No issues found matching the criteria.")
  /\ fst (run hollow (createListProjectsHandler fmt client args) tt)
     = Returned (ErrorHandler.success "No projects found.")
  /\ fst (run hollow (createListTeamsHandler client args) tt)
     = Returned (ErrorHandler.success "No teams found.")
  /\ (Validator.collectErrors
        [ Validator.validateRequired (prop args "query") "query";
          Validator.validateString (prop args "query") "query" (Some 1) None ] = [] ->
      fst (run hollow (createSearchIssuesHandler client args) tt)
      = Returned (ErrorHandler.success
                    ("No issues found matching " +:+ dquote
                     +:+ toStr (prop args "query") +:+ dquote))).
Proof.
  repeat split; try reflexivity.
  intros Hok. unfold createSearchIssuesHandler. rewrite Hok. reflexivity.
Qed.

(** Walks a program to its returned values, as [walk_ends] does, and leaves
    the condition on each returned value to [finish]. *)
Ltac walk_returns finish :=
  repeat first
    [ apply ends_tryCatch
    | apply ends_bind
    | progress cbn [ends bind tryCatch]
    | match goal with
      | |- forall _, _ => intro
      | |- False => fail 1
      | |- ends _ _ _ (if ?b then _ else _) => destruct b
      | |- ends _ _ _ (match ?x with _ => _ end) => destruct x
      end ];
  finish.

(** X15. Every response of every handler has the same shape: exactly one
    content item, of type "text", and an error flag that is either absent (a
    success) or true; the flag is never false. *)
Theorem responses_have_one_text_item (fmt : string -> string) (client : LinearClient) :
  Forall (fun th : MCPTool * ToolHandler =>
            forall args : gmap string JsVal,
              alwaysReturns
                (fun r => (exists t, content r = [ {| type := "text"; text := t |} ])
                          /\ (isError r = None \/ isError r = Some true))
                (snd th args))
         (Server.registrations fmt client).
Proof.
  unfold alwaysReturns. each_handler;
    walk_returns ltac:(try (split; [eexists; reflexivity | auto])).
Qed.

(** ** The entry point and the logger *)


Lemma indexOf_levels (m : string) :
  (m = "debug" /\ Logger.indexOf Logger.levels m = 0)
  \/ (m = "info" /\ Logger.indexOf Logger.levels m = 1)
  \/ (m = "warn" /\ Logger.indexOf Logger.levels m = 2)
  \/ (m = "error" /\ Logger.indexOf Logger.levels m = 3)
  \/ ((m ∉ Logger.levels) /\ Logger.indexOf Logger.levels m = (-1)).
Proof.
  unfold Logger.levels. cbn [Logger.indexOf].
  destruct (String.eqb_spec "debug" m) as [<-|H1]; [auto|].
  destruct (String.eqb_spec "info" m) as [<-|H2]; [auto|].
  destruct (String.eqb_spec "warn" m) as [<-|H3]; [auto 6|].
  destruct (String.eqb_spec "error" m) as [<-|H4]; [auto 6|].
  do 4 right. split; [|reflexivity].
  intros Hin. repeat (apply elem_of_cons in Hin as [-> | Hin]; [done|]).
  by apply elem_of_nil in Hin.
Qed.

(** X17. What the logger prints. A method prints when its level is at or
    above the configured one: at "error" only [error] prints, at "info" (the
    default) [info], [warn] and [error] print and [debug] does not, at "debug"
    every method prints. A configured level that is none of the four names
    silences nothing: every method prints. *)
Theorem logger_levels (method : string) :
  method ∈ Logger.levels ->
  (Logger.shouldLog "error" method = true <-> method = "error")
  /\ (Logger.shouldLog "warn" method = true <-> method = "warn" \/ method = "error")
  /\ (Logger.shouldLog "info" method = true <-> method <> "debug")
  /\ Logger.shouldLog "debug" method = true
  /\ (forall level, level ∉ Logger.levels -> Logger.shouldLog level method = true).
Proof.
  intros Hin. unfold Logger.shouldLog.
  assert (forall level, level ∉ Logger.levels -> Logger.indexOf Logger.levels level = -1)
    as Hunknown.
  { intros level Hout.
    destruct (indexOf_levels level) as [[-> _]|[[-> _]|[[-> _]|[[-> _]|[_ ->]]]]];
      try reflexivity; destruct Hout; unfold Logger.levels;
      repeat first [ apply list_elem_of_here | apply list_elem_of_further ]. }
  destruct (indexOf_levels method) as [[-> Hm]|[[-> Hm]|[[-> Hm]|[[-> Hm]|[Hout _]]]]];
    [| | | |done];
    (repeat split; try (intros level Hlevel; rewrite (Hunknown level Hlevel));
     try rewrite Hm; cbn; intros; try done; try (intuition congruence); auto).
Qed.

(** X17 on the method [warn]. *)
Lemma logger_levels_witness :
  (Logger.shouldLog "error" "warn" = true <-> "warn" = "error")
  /\ (Logger.shouldLog "warn" "warn" = true <-> "warn" = "warn" \/ "warn" = "error")
  /\ (Logger.shouldLog "info" "warn" = true <-> "warn" <> "debug")
  /\ Logger.shouldLog "debug" "warn" = true
  /\ (forall level, level ∉ Logger.levels -> Logger.shouldLog level "warn" = true).
Proof.
  apply (logger_levels "warn"). unfold Logger.levels.
  repeat first [ apply list_elem_of_here | apply list_elem_of_further ].
Defined.

(** ** The client *)

Lemma orUndefined_not_empty (s : option string) : Client.orUndefined s <> Some "".
Proof.
  unfold Client.orUndefined. destruct s as [x|]; [|done].
  destruct (String.eqb_spec x ""); [done | congruence].
Qed.

Lemma orElse_not_empty (s : option string) (d : string) : d <> "" -> Client.orElse s d <> "".
Proof.
  unfold Client.orElse. intros Hd. destruct s as [x|]; [|done].
  by destruct (String.eqb_spec x "").
Qed.

(** X18. What [formatIssue] and [formatProject] normalise. A formatted
    issue has a description that is absent or not empty (the empty string
    becomes absent), a creator whose name is never empty ("Unknown" stands in
    for a missing creator or an empty name) and a state whose name is
    "Unknown" when the issue has none; the identifying fields, the priority
    and the labels are those of the node, label for label. A formatted project
    has a description that is absent or not empty. *)
Theorem formatting_normalises (issue : IssueNode) (project : ProjectNode) :
  let formatted := Client.formatIssue issue in
  LinearIssue.description formatted <> Some ""
  /\ (LinearIssue.description formatted = None
      <-> node_description issue = None \/ node_description issue = Some "")
  /\ ref_name (LinearIssue.creator formatted) <> ""
  /\ (node_creator issue = None ->
      LinearIssue.creator formatted = {| ref_id := ""; ref_name := "Unknown" |})
  /\ (node_state issue = None -> state_name (LinearIssue.state formatted) = "Unknown")
  /\ (forall st, node_state issue = Some st -> LinearIssue.state formatted = st)
  /\ LinearIssue.assignee formatted = node_assignee issue
  /\ LinearIssue.labels formatted = node_labels issue
  /\ (LinearIssue.id formatted, LinearIssue.identifier formatted, LinearIssue.title formatted,
      LinearIssue.priority formatted, LinearIssue.url formatted)
     = (node_id issue, node_identifier issue, node_title issue, node_priority issue,
        node_url issue)
  /\ LinearProject.description (Client.formatProject project) <> Some "".
Proof.
  cbv zeta. unfold Client.formatIssue, Client.formatProject.
  cbn [LinearIssue.description LinearIssue.creator LinearIssue.state LinearIssue.assignee
       LinearIssue.labels LinearIssue.id LinearIssue.identifier LinearIssue.title
       LinearIssue.priority LinearIssue.url LinearProject.description ref_name].
  split; [apply orUndefined_not_empty|].
  split.
  { unfold Client.orUndefined. destruct (node_description issue) as [d|]; [|split; auto].
    destruct (String.eqb_spec d ""); [subst; split; auto|].
    split; [discriminate | intros [[=] | [=]]; done]. }
  split; [by apply orElse_not_empty|].
  split; [by intros ->|].
  split; [by intros ->|].
  split; [intros st ->; by destruct st|].
  split; [destruct (node_assignee issue) as [[]|]; reflexivity|].
  split.
  { induction (node_labels issue) as [|[] rest IH]; cbn; [reflexivity | by rewrite IH]. }
  split; [reflexivity | apply orUndefined_not_empty].
Qed.

(** X19. list_issues validates nothing: for every arguments its first event
    is the issues query, on the team of the client and ordered by [updatedAt].
    The limit asked for is 50 when [limit] is left out and otherwise [limit] as
    given, whatever its type. A filter on the assignee, the state type or the
    project is sent when the argument is truthy (an empty string sends none);
    a filter on the priority is sent whenever [priority] is not [undefined], so
    priority 0 ("No priority") does filter. *)
Theorem list_issues_request (client : LinearClient) (args : gmap string JsVal) :
  exists f k,
    createListIssuesHandler client args
    = Vis (SdkIssues f (if strictEq (prop args "limit") JUndefined
                        then JNum 50 else prop args "limit") "updatedAt") k
    /\ f_team f = teamId client
    /\ (f_priority f = None <-> prop args "priority" = JUndefined)
    /\ (forall n, prop args "priority" = JNum n -> f_priority f = Some (JNum n))
    /\ (f_assignee f = None <-> truthy (prop args "assigneeId") = false)
    /\ (f_stateType f = None <-> truthy (prop args "stateType") = false)
    /\ (f_project f = None <-> truthy (prop args "projectId") = false)
    /\ (forall s, s <> "" -> prop args "assigneeId" = JStr s -> f_assignee f = Some (JStr s)).
Proof.
  unfold_programs. eexists _, _. split; [reflexivity|].
  cbn [f_team f_priority f_assignee f_stateType f_project from_option
       IssueFilter.assigneeId IssueFilter.priority IssueFilter.stateType IssueFilter.projectId].
  split; [reflexivity|].
  split; [destruct (prop args "priority"); cbn; split; done|].
  split; [by intros n ->|].
  split; [destruct (truthy (prop args "assigneeId")); split; done|].
  split; [destruct (truthy (prop args "stateType")); split; done|].
  split; [destruct (truthy (prop args "projectId")); split; done|].
  intros s Hs ->. cbn. by destruct (String.eqb_spec s "").
Qed.



(** X21. The handlers that take an id check that it is there and not what
    it is: get_issue goes on to the tracker exactly when [issueId] is neither
    [undefined], [null] nor the empty string, and get_project likewise for
    [projectId], so an id of the wrong type (a number, [false]) is asked of
    the SDK as given. *)
Theorem ids_are_checked_for_presence_only (fmt : string -> string) (client : LinearClient)
    (args : gmap string JsVal) :
  let present (v : JsVal) := v <> JUndefined /\ v <> JNull /\ v <> JStr "" in
  (present (prop args "issueId")
   <-> exists k, createGetIssueHandler fmt client args = Vis (SdkIssue (prop args "issueId")) k)
  /\ (present (prop args "projectId")
      <-> exists k, createGetProjectHandler fmt client args
                    = Vis (SdkProject (prop args "projectId")) k)
  /\ (present (JNum 0) /\ present (JBool false)).
Proof.
  cbv zeta. unfold createGetIssueHandler, createGetProjectHandler.
  split; [|split; [|done]].
  - rewrite <- (validateRequired_None _ "issueId").
    match goal with
    | |- context [tryCatch (if hasErrors ?e then _ else ?p) ?h] =>
        destruct (guarded_handler_cases e p h) as [[He ->] | [He ->]]
    end; cbn [Validator.collectErrors] in He;
      destruct (Validator.validateRequired (prop args "issueId") "issueId"); try done.
    + unfold_programs. split; [intros _; eexists; reflexivity | done].
    + split; [discriminate | intros (? & [=])].
  - rewrite <- (validateRequired_None _ "projectId").
    match goal with
    | |- context [tryCatch (if hasErrors ?e then _ else ?p) ?h] =>
        destruct (guarded_handler_cases e p h) as [[He ->] | [He ->]]
    end; cbn [Validator.collectErrors] in He;
      destruct (Validator.validateRequired (prop args "projectId") "projectId"); try done.
    + unfold_programs. split; [intros _; eexists; reflexivity | done].
    + split; [discriminate | intros (? & [=])].
Qed.
